(** * Response formatting for the Google Cloud Natural Language plugin

    A shallow embedding of [python-lib/cloud_api.py]: the three row
    formatters, the sentiment scaling rule and the client construction
    helper, together with the slice of Python's value semantics they
    rely on (dynamic values, exceptions, number comparison, binary64
    arithmetic). *)

From Stdlib Require Import ZArith Lia Bool Ascii String List Sorting.Sorted
  Sorting.Permutation.
From Stdlib Require Import Floats.SpecFloat.
From stdpp Require Import gmap strings list pretty stringmap.

Set Warnings "-register-all,-clear-no-such-hyp".

Local Open Scope Z_scope.
Local Open Scope string_scope.

(** ** Python values *)

(** Values that [json.loads] can produce, which are also the values the
    formatters store in a row. A [dict] keyed by strings is a finite
    map; a float is an IEEE 754 binary64 number in the representation
    of the Standard Library's specification of floats. *)
Inductive pyval :=
| PNone
| PBool (b : bool)
| PInt (z : Z)
| PFloat (f : spec_float)
| PStr (s : string)
| PList (l : list pyval)
| PDict (d : gmap string pyval).

(** The exception classes the module can meet. [ValueError] carries its
    message; [OtherError] stands for any exception raised by library
    code outside this file. *)
Inductive exn :=
| KeyError
| TypeError
| AttributeError
| OverflowError
| ValueError (msg : string)
| OtherError.

Inductive result (A : Type) :=
| Ok (a : A)
| Raise (e : exn).
Arguments Ok {A} a.
Arguments Raise {A} e.

Definition rbind {A B} (r : result A) (k : A -> result B) : result B :=
  match r with
  | Ok a => k a
  | Raise e => Raise e
  end.

Notation "'let*' x ':=' r 'in' k" := (rbind r (fun x => k))
  (at level 10, x name, r at level 100, k at level 200).

(** ** binary64 *)

Definition prec : Z := 53.
Definition emax : Z := 1024.

Definition f64_add : spec_float -> spec_float -> spec_float := SFadd prec emax.
Definition f64_div : spec_float -> spec_float -> spec_float := SFdiv prec emax.

(** The float literals of the source, as mantissa and exponent. *)
Definition f64_0_33 : spec_float := S754_finite false 5944751508129055 (-54).
Definition f64_0_66 : spec_float := S754_finite false 5944751508129055 (-53).
Definition f64_0_34 : spec_float := S754_finite false 6124895493223875 (-54).
Definition f64_0_5 : spec_float := S754_finite false 4503599627370496 (-53).
Definition f64_1 : spec_float := S754_finite false 4503599627370496 (-52).
Definition f64_2 : spec_float := S754_finite false 4503599627370496 (-51).
Definition f64_zero : spec_float := S754_zero false.

(** [float(z)] for a Python [int]: round to nearest, ties to even, and
    [OverflowError] when the result does not fit. *)
Definition float_of_int (z : Z) : result spec_float :=
  match binary_normalize prec emax z 0 false with
  | S754_infinity _ => Raise OverflowError
  | f => Ok f
  end.

(** ** Number comparison

    Python compares [int] and [float] operands by their exact values;
    a NaN is unordered. A number is read as [XNaN], an infinity or a
    dyadic rational [m * 2^e]. *)
Inductive xnum :=
| XNaN
| XInf (neg : bool)
| XFin (m e : Z).

Definition xnum_of_float (f : spec_float) : xnum :=
  match f with
  | S754_zero _ => XFin 0 0
  | S754_infinity s => XInf s
  | S754_nan => XNaN
  | S754_finite s m e => XFin (cond_Zopp s (Zpos m)) e
  end.

(** [bool] is a subclass of [int]: [True] is 1 and [False] is 0. *)
Definition as_number (v : pyval) : option xnum :=
  match v with
  | PBool b => Some (XFin (if b then 1 else 0) 0)
  | PInt z => Some (XFin z 0)
  | PFloat f => Some (xnum_of_float f)
  | _ => None
  end.

Definition fin_compare (m1 e1 m2 e2 : Z) : comparison :=
  let e := Z.min e1 e2 in
  Z.compare (m1 * 2 ^ (e1 - e)) (m2 * 2 ^ (e2 - e)).

Definition xcompare (a b : xnum) : option comparison :=
  match a, b with
  | XNaN, _ | _, XNaN => None
  | XInf s1, XInf s2 =>
      Some (match s1, s2 with
            | true, false => Lt
            | false, true => Gt
            | _, _ => Eq
            end)
  | XInf s, XFin _ _ => Some (if s then Lt else Gt)
  | XFin _ _, XInf s => Some (if s then Gt else Lt)
  | XFin m1 e1, XFin m2 e2 => Some (fin_compare m1 e1 m2 e2)
  end.

Definition xltb (a b : xnum) : bool :=
  match xcompare a b with
  | Some Lt => true
  | _ => false
  end.

Definition xleb (a b : xnum) : bool :=
  match xcompare a b with
  | Some (Lt | Eq) => true
  | _ => false
  end.

(** ** The Python runtime and the libraries around the module

    What the module calls but does not define. [json_loads] is
    [json.loads]; [str_to_float] is [float] on a [str]; [list_lt] is the
    ordering [<] of two lists. Each returns what the call returns or the
    exception it raises. *)
Class PyRuntime := {
  json_loads : pyval -> result pyval;
  str_to_float : string -> result spec_float;
  list_lt : list pyval -> list pyval -> result bool;
}.

(** The Google client library: [entity_type_members] lists the names of
    [language.enums.Entity.Type.__members__] in order;
    [from_service_account_info] is
    [service_account.Credentials.from_service_account_info] and
    [LanguageServiceClient] the client constructor, called with or without
    credentials. *)
Class GoogleSdk := {
  entity_type_members : list string;
  credentials : Type;
  client : Type;
  from_service_account_info : pyval -> result credentials;
  LanguageServiceClient : option credentials -> result client;
}.

(** [plugin_io_utils.generate_unique name existing_names prefix]. *)
Class PluginIo := {
  generate_unique : string -> gset string -> string -> string;
}.

Section Builtins.
Context `{PyRuntime}.

(** [a < b] *)
Definition py_lt (a b : pyval) : result bool :=
  match as_number a, as_number b with
  | Some x, Some y => Ok (xltb x y)
  | _, _ =>
      match a, b with
      | PStr s, PStr t => Ok (String.ltb s t)
      | PList l1, PList l2 => list_lt l1 l2
      | _, _ => Raise TypeError
      end
  end.

(** [a > b], the reflection of [<] *)
Definition py_gt (a b : pyval) : result bool := py_lt b a.

(** [float(v)] *)
Definition py_float (v : pyval) : result spec_float :=
  match v with
  | PFloat f => Ok f
  | PInt z => float_of_int z
  | PBool b => Ok (if b then f64_1 else f64_zero)
  | PStr s => str_to_float s
  | PNone | PList _ | PDict _ => Raise TypeError
  end.

(** [v + y] for a float [y]: defined on numbers only, the left operand
    converted to float first. *)
Definition py_add_float (v : pyval) (y : spec_float) : result spec_float :=
  match v with
  | PFloat f => Ok (f64_add f y)
  | PInt z => let* f := float_of_int z in Ok (f64_add f y)
  | PBool b => Ok (f64_add (if b then f64_1 else f64_zero) y)
  | PNone | PStr _ | PList _ | PDict _ => Raise TypeError
  end.

(** [o.get(k, default)]: only a [dict] has the method. *)
Definition py_get (o : pyval) (k : string) (dflt : pyval) : result pyval :=
  match o with
  | PDict d => Ok (default dflt (d !! k))
  | _ => Raise AttributeError
  end.

(** The elements a [for] loop over [v] visits: the items of a list, the
    keys of a dict, the characters of a string. *)
Definition py_iter (v : pyval) : result (list pyval) :=
  match v with
  | PList l => Ok l
  | PDict d => Ok (PStr <$> (fst <$> map_to_list d))
  | PStr s => Ok ((fun c => PStr (String c EmptyString)) <$> list_ascii_of_string s)
  | PNone | PBool _ | PInt _ | PFloat _ => Raise TypeError
  end.

(** ** [scale_sentiment_score] *)

Definition scale_sentiment_score (score : pyval) (scale : string)
  : result pyval :=
  if String.eqb scale "binary" then
    let* neg := py_lt score (PInt 0) in
    Ok (PStr (if neg then "negative" else "positive"))
  else if String.eqb scale "ternary" then
    let* neg := py_lt score (PFloat (SFopp f64_0_33)) in
    if neg then Ok (PStr "negative")
    else
      let* pos := py_gt score (PFloat f64_0_33) in
      if pos then Ok (PStr "positive") else Ok (PStr "neutral")
  else if String.eqb scale "quinary" then
    let* b1 := py_lt score (PFloat (SFopp f64_0_66)) in
    if b1 then Ok (PStr "highly negative")
    else
      let* b2 := py_lt score (PFloat (SFopp f64_0_33)) in
      if b2 then Ok (PStr "negative")
      else
        let* b3 := py_lt score (PFloat f64_0_33) in
        if b3 then Ok (PStr "neutral")
        else
          let* b4 := py_lt score (PFloat f64_0_66) in
          if b4 then Ok (PStr "positive") else Ok (PStr "highly positive")
  else if String.eqb scale "rescale_zero_to_one" then
    let* s1 := py_add_float score f64_1 in
    Ok (PFloat (f64_div s1 f64_2))
  else
    let* f := py_float score in
    Ok (PFloat f).
End Builtins.

(** ** Rows and in-place mutation

    A row is a [dict] from column names to values. The formatters mutate
    the row they are given and may raise half-way through: a computation
    takes the row and gives back the row as it has left it ([final]),
    with either a value or the exception raised ([outcome]). [writes]
    lists the keys assigned on the way, in order; it is a record kept for
    the specification, no program reads it. *)
Record run (A : Type) := Run {
  final : gmap string pyval;
  writes : list string;
  outcome : result A;
}.
Arguments Run {A} final writes outcome.
Arguments final {A} r.
Arguments writes {A} r.
Arguments outcome {A} r.

Definition M (A : Type) : Type := gmap string pyval -> run A.

Definition mret {A} (a : A) : M A := fun r => Run r [] (Ok a).

Definition mbind {A B} (m : M A) (k : A -> M B) : M B :=
  fun r =>
    let x := m r in
    match outcome x with
    | Ok a =>
        let y := k a (final x) in
        Run (final y) (writes x ++ writes y) (outcome y)
    | Raise e => Run (final x) (writes x) (Raise e)
    end.

Notation "x <- m ;; k" := (mbind m (fun x => k))
  (at level 100, m at next level, k at level 200, right associativity).
Notation "m ;; k" := (mbind m (fun _ => k))
  (at level 100, k at level 200, right associativity).

(** A pure step that may raise. *)
Definition lift {A} (x : result A) : M A := fun r => Run r [] x.

(** [row[k]] *)
Definition getitem (k : string) : M pyval :=
  fun r =>
    Run r [] (match r !! k with Some v => Ok v | None => Raise KeyError end).

(** [row[k] = v] *)
Definition setitem (k : string) (v : pyval) : M unit :=
  fun r => Run (<[k:=v]> r) [k] (Ok tt).

(** [row.keys()] *)
Definition keys : M (gset string) := fun r => Run r [] (Ok (dom r)).

(** ** Enumerations of [plugin_io_utils] *)

Inductive OutputFormatEnum := SINGLE_COLUMN | MULTIPLE_COLUMNS.

(** Modelled from the spec: [ErrorHandlingEnum] is declared in
    [plugin_io_utils], which is not part of the sources; [cloud_api.py]
    names only [LOG]. The spec lists three policies:
    log-and-substitute-empty ([LOG]), raise-and-abort ([FAIL]) and
    silently-substitute-empty ([IGNORE]). *)
Inductive ErrorHandlingEnum := LOG | FAIL | IGNORE.

(** [str.lower] on ASCII letters, which is all an enumeration name has. *)
Definition lower_ascii (c : ascii) : ascii :=
  let n := nat_of_ascii c in
  if ((65 <=? n) && (n <=? 90))%nat then ascii_of_nat (n + 32) else c.

Fixpoint lower (s : string) : string :=
  match s with
  | EmptyString => EmptyString
  | String c s' => String (lower_ascii c) (lower s')
  end.

(** [v == s] for a string [s]: among these values only an equal string
    compares equal to a string. *)
Definition py_eq_str (v : pyval) (s : string) : bool :=
  match v with
  | PStr t => String.eqb t s
  | _ => false
  end.

(** [len(v)] *)
Definition py_len (v : pyval) : result nat :=
  match v with
  | PList l => Ok (length l)
  | PStr s => Ok (String.length s)
  | PDict d => Ok (size d)
  | PNone | PBool _ | PInt _ | PFloat _ => Raise TypeError
  end.

Section Formatters.
Context `{PyRuntime} `{GoogleSdk} `{PluginIo}.

(** Modelled from the spec: [plugin_io_utils.safe_json_loads] is not part
    of the sources. It decodes the raw response; when decoding fails, the
    policy decides: raise-and-abort lets the error out, the other two put
    an empty object in the place of the response. *)
Definition safe_json_loads (raw : pyval) (error_handling : ErrorHandlingEnum)
  : result pyval :=
  match json_loads raw with
  | Ok v => Ok v
  | Raise e =>
      match error_handling with
      | FAIL => Raise e
      | LOG | IGNORE => Ok (PDict ∅)
      end
  end.

(** ** [format_named_entity_recognition] *)

(** [[e.get("name") for e in entities if e.get("type", '') == n]] *)
Fixpoint entity_names (entities : list pyval) (n : string)
  : result (list pyval) :=
  match entities with
  | [] => Ok []
  | e :: rest =>
      let* t := py_get e "type" (PStr "") in
      if py_eq_str t n then
        let* name := py_get e "name" PNone in
        let* names := entity_names rest n in
        Ok (name :: names)
      else entity_names rest n
  end.

(** The body of [for n in available_entity_types], then the rest of the
    loop. *)
Fixpoint entity_type_loop (types : list string) (entities : pyval)
    (column_prefix : string) : M unit :=
  match types with
  | [] => mret tt
  | n :: rest =>
      ks <- keys;;
      let entity_type_column :=
        generate_unique ("entity_type_" ++ lower n) ks column_prefix in
      names <- lift (let* es := py_iter entities in entity_names es n);;
      setitem entity_type_column (PList names);;
      v <- getitem entity_type_column;;
      len <- lift (py_len v);;
      (if Nat.eqb len 0 then setitem entity_type_column (PStr "")
       else mret tt);;
      entity_type_loop rest entities column_prefix
  end.

Definition format_named_entity_recognition (response_column : string)
    (output_format : OutputFormatEnum) (column_prefix : string)
    (error_handling : ErrorHandlingEnum) : M unit :=
  raw_response <- getitem response_column;;
  response <- lift (safe_json_loads raw_response error_handling);;
  match output_format with
  | SINGLE_COLUMN =>
      ks <- keys;;
      let entity_column := generate_unique "entities" ks column_prefix in
      entities <- lift (py_get response "entities" (PStr ""));;
      setitem entity_column entities
  | MULTIPLE_COLUMNS =>
      entities <- lift (py_get response "entities" (PList []));;
      entity_type_loop entity_type_members entities column_prefix
  end.

(** ** [format_sentiment_analysis] *)

Definition format_sentiment_analysis (response_column : string)
    (sentiment_scale : string) (column_prefix : string)
    (error_handling : ErrorHandlingEnum) : M unit :=
  raw_response <- getitem response_column;;
  response <- lift (safe_json_loads raw_response error_handling);;
  ks <- keys;;
  let sentiment_score_column := generate_unique "score" ks column_prefix in
  let sentiment_score_scaled_column :=
    generate_unique "score_scaled" ks column_prefix in
  let sentiment_magnitude_column :=
    generate_unique "magnitude" ks column_prefix in
  sentiment <- lift (py_get response "documentSentiment" (PDict ∅));;
  sentiment_score <- lift (py_get sentiment "score" PNone);;
  magnitude_score <- lift (py_get sentiment "magnitude" PNone);;
  match sentiment_score with
  | PNone =>
      setitem sentiment_score_column PNone;;
      setitem sentiment_score_scaled_column PNone
  | _ =>
      f <- lift (py_float sentiment_score);;
      setitem sentiment_score_column (PFloat f);;
      scaled <- lift (scale_sentiment_score sentiment_score sentiment_scale);;
      setitem sentiment_score_scaled_column scaled
  end;;
  match magnitude_score with
  | PNone => setitem sentiment_magnitude_column PNone
  | _ =>
      f <- lift (py_float magnitude_score);;
      setitem sentiment_magnitude_column (PFloat f)
  end.

(** ** [format_text_classification] *)

(** [sorted(items, key=key, reverse=True)]: the keys are computed first,
    then the items are put in descending order of their keys by a stable
    sort that compares keys with [<] only; an exception raised by a
    comparison ends the sort. *)
Fixpoint insert_desc (k x : pyval) (l : list (pyval * pyval))
  : result (list (pyval * pyval)) :=
  match l with
  | [] => Ok [(k, x)]
  | (k', y) :: rest =>
      let* lt := py_lt k k' in
      if lt then
        let* r := insert_desc k x rest in
        Ok ((k', y) :: r)
      else Ok ((k, x) :: l)
  end.

Fixpoint sort_desc (l : list (pyval * pyval))
  : result (list (pyval * pyval)) :=
  match l with
  | [] => Ok []
  | (k, x) :: rest =>
      let* s := sort_desc rest in
      insert_desc k x s
  end.

Fixpoint keyed (key : pyval -> result pyval) (l : list pyval)
  : result (list (pyval * pyval)) :=
  match l with
  | [] => Ok []
  | x :: rest =>
      let* k := key x in
      let* r := keyed key rest in
      Ok ((k, x) :: r)
  end.

Definition sorted_reverse (key : pyval -> result pyval) (v : pyval)
  : result (list pyval) :=
  let* items := py_iter v in
  let* ks := keyed key items in
  let* s := sort_desc ks in
  Ok (snd <$> s).

(** The body of [for n in range(num_categories)], then the rest of the
    loop. *)
Fixpoint category_loop (ns : list nat) (categories : list pyval)
    (column_prefix : string) : M unit :=
  match ns with
  | [] => mret tt
  | n :: rest =>
      ks <- keys;;
      let category_column :=
        generate_unique ("category_" ++ pretty n) ks column_prefix in
      let confidence_column :=
        generate_unique ("category_" ++ pretty n ++ "_confidence") ks
          column_prefix in
      match categories !! n with
      | Some c =>
          name <- lift (py_get c "name" (PStr ""));;
          setitem category_column name;;
          confidence <- lift (py_get c "confidence" PNone);;
          setitem confidence_column confidence
      | None =>
          setitem category_column (PStr "");;
          setitem confidence_column PNone
      end;;
      category_loop rest categories column_prefix
  end.

Definition format_text_classification (response_column : string)
    (output_format : OutputFormatEnum) (num_categories : Z)
    (column_prefix : string) (error_handling : ErrorHandlingEnum) : M unit :=
  raw_response <- getitem response_column;;
  response <- lift (safe_json_loads raw_response error_handling);;
  match output_format with
  | SINGLE_COLUMN =>
      ks <- keys;;
      let classification_column :=
        generate_unique "categories" ks column_prefix in
      categories <- lift (py_get response "categories" (PStr ""));;
      setitem classification_column categories
  | MULTIPLE_COLUMNS =>
      cats <- lift (py_get response "categories" (PList []));;
      categories <- lift (sorted_reverse
                            (fun x => py_get x "confidence" PNone) cats);;
      category_loop (seq 0 (Z.to_nat num_categories)) categories
        column_prefix
  end.

(** ** [get_client] *)

Definition get_client (gcp_service_account_key : option pyval)
  : result client :=
  match gcp_service_account_key with
  | None => LanguageServiceClient None
  | Some key =>
      match json_loads key with
      | Raise _ => Raise (ValueError "GCP service account key is not valid JSON.")
      | Ok info =>
          let* creds := from_service_account_info info in
          LanguageServiceClient (Some creds)
      end
  end.
End Formatters.

(** ** Vocabulary of the specification *)

(** [v.get(k, dflt)] when [v] is known to be a [dict]. *)
Definition dict_get (v : pyval) (k : string) (dflt : pyval) : pyval :=
  match v with
  | PDict d => default dflt (d !! k)
  | _ => dflt
  end.

Definition is_dict (v : pyval) : Prop := exists d, v = PDict d.

(** The number a value stands for; a value that is not a number reads as
    NaN, so that [number_of v <> XNaN] says: [v] is an [int], a [bool] or a
    [float] other than NaN. *)
Definition number_of (v : pyval) : xnum := default XNaN (as_number v).

Definition xeqb (a b : xnum) : bool :=
  match xcompare a b with
  | Some Eq => true
  | _ => false
  end.

(** A category object whose confidence is an ordered number. *)
Definition is_category (c : pyval) : Prop :=
  is_dict c /\ number_of (dict_get c "confidence" PNone) <> XNaN.

(** The names of the entities of type [n], in the order of the list. *)
Definition names_of_type (entities : list pyval) (n : string) : list pyval :=
  (fun e => dict_get e "name" PNone)
    <$> List.filter (fun e => py_eq_str (dict_get e "type" (PStr "")) n)
          entities.

Definition entity_type_value (entities : list pyval) (n : string) : pyval :=
  match names_of_type entities n with
  | [] => PStr ""
  | l => PList l
  end.

(** The name and the confidence in slot [n] of the sorted categories, and
    the sentinels when the list is shorter. *)
Definition slot_name (sorted : list pyval) (n : nat) : pyval :=
  match sorted !! n with
  | Some c => dict_get c "name" (PStr "")
  | None => PStr ""
  end.

Definition slot_confidence (sorted : list pyval) (n : nat) : pyval :=
  match sorted !! n with
  | Some c => dict_get c "confidence" PNone
  | None => PNone
  end.

(** [a] is not below [b]: the order of a list sorted in descending order. *)
Definition conf_ge (a b : pyval) : Prop :=
  xleb (number_of (dict_get b "confidence" PNone))
       (number_of (dict_get a "confidence" PNone)) = true.

(** A category object whose confidence is missing or is a number. *)
Definition scored_or_missing (c : pyval) : Prop :=
  is_dict c
  /\ (dict_get c "confidence" PNone = PNone
      \/ is_Some (as_number (dict_get c "confidence" PNone))).

(** A category paired with its sort key. *)
Definition with_confidence (c : pyval) : pyval * pyval :=
  (dict_get c "confidence" PNone, c).

Definition same_confidence (q : xnum) (c : pyval) : bool :=
  xeqb (number_of (dict_get c "confidence" PNone)) q.

Section Columns.
Context `{PluginIo}.

(** The contract of [generate_unique]: the name it returns is not among
    the existing names. *)
Definition fresh_names : Prop :=
  forall name ks prefix, generate_unique name ks prefix ∉ ks.

(** The columns of the entity types, as the loop generates them: each
    against the keys of the row at that point. *)
Fixpoint entity_type_columns (types : list string) (ks : gset string)
    (prefix : string) : list string :=
  match types with
  | [] => []
  | n :: rest =>
      let c := generate_unique ("entity_type_" ++ lower n) ks prefix in
      c :: entity_type_columns rest ({[c]} ∪ ks) prefix
  end.

(** The row after the loop over the entity types, when no step raises. *)
Fixpoint entity_type_fill (types : list string) (value : string -> pyval)
    (prefix : string) (row : gmap string pyval) : gmap string pyval :=
  match types with
  | [] => row
  | n :: rest =>
      let c := generate_unique ("entity_type_" ++ lower n) (dom row) prefix in
      entity_type_fill rest value prefix (<[c := value n]> row)
  end.

(** The same for the category slots: a pair of columns per slot. *)
Fixpoint category_columns (ns : list nat) (ks : gset string)
    (prefix : string) : list (string * string) :=
  match ns with
  | [] => []
  | n :: rest =>
      let c1 := generate_unique ("category_" ++ pretty n) ks prefix in
      let c2 :=
        generate_unique ("category_" ++ pretty n ++ "_confidence") ks prefix in
      (c1, c2) :: category_columns rest ({[c2]} ∪ ({[c1]} ∪ ks)) prefix
  end.

Fixpoint category_fill (ns : list nat) (sorted : list pyval)
    (prefix : string) (row : gmap string pyval) : gmap string pyval :=
  match ns with
  | [] => row
  | n :: rest =>
      let c1 := generate_unique ("category_" ++ pretty n) (dom row) prefix in
      let c2 :=
        generate_unique ("category_" ++ pretty n ++ "_confidence") (dom row)
          prefix in
      category_fill rest sorted prefix
        (<[c2 := slot_confidence sorted n]> (<[c1 := slot_name sorted n]> row))
  end.

Definition pair_keys (cols : list (string * string)) : list string :=
  cols ≫= (fun c => [c.1; c.2]).
End Columns.

Section SentimentBlocks.
Context `{PyRuntime}.

(** The two conditional statements that end [format_sentiment_analysis],
    named so that the lemmas can speak of them. *)
Definition score_block (sentiment_score : pyval) (sentiment_scale : string)
    (sentiment_score_column sentiment_score_scaled_column : string) : M unit :=
  match sentiment_score with
  | PNone =>
      setitem sentiment_score_column PNone;;
      setitem sentiment_score_scaled_column PNone
  | _ =>
      f <- lift (py_float sentiment_score);;
      setitem sentiment_score_column (PFloat f);;
      scaled <- lift (scale_sentiment_score sentiment_score sentiment_scale);;
      setitem sentiment_score_scaled_column scaled
  end.

Definition magnitude_block (magnitude_score : pyval)
    (sentiment_magnitude_column : string) : M unit :=
  match magnitude_score with
  | PNone => setitem sentiment_magnitude_column PNone
  | _ =>
      f <- lift (py_float magnitude_score);;
      setitem sentiment_magnitude_column (PFloat f)
  end.
End SentimentBlocks.

(** [m], run from any row that extends [r0], leaves a row that still
    extends [r0], assigns no key of [r0], and returns only values that
    satisfy [Q]. *)
Definition preserves (r0 : gmap string pyval) {A : Type} (m : M A)
    (Q : A -> Prop) : Prop :=
  forall r, r0 ⊆ r ->
    r0 ⊆ final (m r)
    /\ Forall (fun k => k ∉ dom r0) (writes (m r))
    /\ forall a, outcome (m r) = Ok a -> Q a.

(** The position of a label on the scale from most negative to most
    positive. *)
Definition label_rank (label : pyval) : nat :=
  match label with
  | PStr s =>
      if String.eqb s "highly negative" then 0
      else if String.eqb s "negative" then 1
      else if String.eqb s "neutral" then 2
      else if String.eqb s "positive" then 3
      else if String.eqb s "highly positive" then 4
      else 0
  | _ => 0
  end%nat.

(** The type an entity object declares, as the comprehension reads it. *)
Definition entity_type (e : pyval) : pyval := dict_get e "type" (PStr "").

(** The boundary sentence of the spec read bucket-wise: a score equal to a
    boundary belongs to the bucket above the boundary. Each entry gives a
    mode, a boundary, and the labels of the buckets below and above it. *)
Definition bucket_boundaries : list (string * spec_float * string * string) :=
  [ ("binary", f64_zero, "negative", "positive");
    ("ternary", SFopp f64_0_33, "negative", "neutral");
    ("ternary", f64_0_33, "neutral", "positive");
    ("quinary", SFopp f64_0_66, "highly negative", "negative");
    ("quinary", SFopp f64_0_33, "negative", "neutral");
    ("quinary", f64_0_33, "neutral", "positive");
    ("quinary", f64_0_66, "positive", "highly positive") ].

Definition boundaries_in_upper_bucket `{PyRuntime} : Prop :=
  forall mode b lower upper,
    In (mode, b, lower, upper) bucket_boundaries ->
    scale_sentiment_score (PFloat b) mode = Ok (PStr upper).

(** ** Rounding bounds *)

(** The mantissa of a shift record is at most [n], and it is below [n] when
    the bits shifted out so far are not all zero. *)
Definition below (mrs : shr_record) (n : Z) : Prop :=
  0 <= shr_m mrs <= n /\ (orb (shr_r mrs) (shr_s mrs) = true -> shr_m mrs < n).

(** A float that is [+0] or positive and at most [2^k]. *)
Definition at_most_pow2 (r : spec_float) (k : Z) : Prop :=
  r = S754_zero false \/
  exists m e, r = S754_finite false m e /\ e <= k /\ Zpos m <= 2 ^ (k - e).

(** ** A sample environment

    A runtime, a client library and a name generator to run the formatters
    on concrete rows. The decoder knows a handful of documents by a tag
    that stands for their JSON text; any other string is not JSON. *)
Module Sample.

Definition entity : pyval :=
  PDict (<["name" := PStr "A"]> {["type" := PStr "PERSON"]}).

Definition entities_doc : pyval := PDict {["entities" := PList [entity]]}.

Definition category (name : string) (confidence : pyval) : pyval :=
  PDict (<["name" := PStr name]> {["confidence" := confidence]}).

Definition categories_doc : pyval :=
  PDict {["categories" :=
            PList [category "/Arts" (PFloat f64_0_33);
                   category "/News" (PFloat f64_0_66)]]}.

Definition unscored_doc : pyval :=
  PDict {["categories" :=
            PList [PDict {["name" := PStr "/Arts"]};
                   category "/News" (PFloat f64_0_66)]]}.

Definition sentiment_doc : pyval :=
  PDict {["documentSentiment" :=
            PDict (<["score" := PFloat f64_0_34]>
                     {["magnitude" := PInt 2]})]}.

Definition magnitude_only_doc : pyval :=
  PDict {["documentSentiment" := PDict {["magnitude" := PInt 2]}]}.

Definition loads (v : pyval) : result pyval :=
  match v with
  | PStr "entities" => Ok entities_doc
  | PStr "categories" => Ok categories_doc
  | PStr "unscored" => Ok unscored_doc
  | PStr "sentiment" => Ok sentiment_doc
  | PStr "magnitude only" => Ok magnitude_only_doc
  | PStr _ => Raise (ValueError "Expecting value")
  | _ => Raise TypeError
  end.

Definition runtime : PyRuntime := {|
  json_loads := loads;
  str_to_float := fun _ => Raise (ValueError "could not convert string to float");
  list_lt := fun _ _ => Raise TypeError;
|}.

Definition sdk : GoogleSdk := {|
  entity_type_members :=
    ["UNKNOWN"; "PERSON"; "LOCATION"; "ORGANIZATION"; "EVENT"; "WORK_OF_ART";
     "CONSUMER_GOOD"; "OTHER"; "PHONE_NUMBER"; "ADDRESS"; "DATE"; "NUMBER";
     "PRICE"];
  credentials := pyval;
  client := option pyval;
  from_service_account_info := fun info => Ok info;
  LanguageServiceClient := fun c => Ok c;
|}.

(** The prefixed name, with a number appended while the name is taken. *)
Definition plugin_io : PluginIo := {|
  generate_unique := fun name ks prefix =>
    fresh_string_of_set (prefix ++ "_" ++ name) ks;
|}.

Definition row (raw : string) : gmap string pyval :=
  <["text" := PStr "some text"]> {["response" := PStr raw]}.

End Sample.

(** Responses of other shapes: JSON that is not an object, an entity list
    with a bare string in it, a magnitude that is not a number. *)
Module Shapes.

Definition bare_entity_doc : pyval :=
  PDict {["entities" := PList [Sample.entity; PStr "B"]]}.

Definition entities_number_doc : pyval :=
  PDict {["entities" := PInt 3]}.

Definition bad_magnitude_doc : pyval :=
  PDict {["documentSentiment" :=
            PDict (<["score" := PFloat f64_0_34]>
                     {["magnitude" := PList []]})]}.

Definition loads (v : pyval) : result pyval :=
  match v with
  | PStr "a list" => Ok (PList [])
  | PStr "bare entity" => Ok bare_entity_doc
  | PStr "entities as number" => Ok entities_number_doc
  | PStr "bad magnitude" => Ok bad_magnitude_doc
  | PStr "empty object" => Ok (PDict ∅)
  | _ => Sample.loads v
  end.

Definition runtime : PyRuntime := {|
  json_loads := loads;
  str_to_float := fun _ => Raise (ValueError "could not convert string to float");
  list_lt := fun _ _ => Raise TypeError;
|}.

End Shapes.

(** * Properties *)

(** ** The sentiment scale *)

Section ScaleSentimentScore.
Context `{PyRuntime}.

Lemma py_lt_number (a b : pyval) (x y : xnum) :
  as_number a = Some x -> as_number b = Some y ->
  py_lt a b = Ok (xltb x y).
Proof. intros Ha Hb. unfold py_lt. now rewrite Ha, Hb. Qed.

Lemma py_add_float_number (v : pyval) (x : xnum) (f y : spec_float) :
  as_number v = Some x -> py_float v = Ok f ->
  py_add_float v y = Ok (f64_add f y).
Proof.
  destruct v; simpl; try discriminate; intros _ Hf.
  - now inversion Hf.
  - now rewrite Hf.
  - now inversion Hf.
Qed.

(** C1 (as amended). For a numeric score the function follows the table of
    the modes: binary is negative below 0 and positive otherwise; ternary
    is negative below -0.33, positive above 0.33 and neutral otherwise;
    quinary has the five buckets cut at -0.66, -0.33, 0.33 and 0.66;
    rescale_zero_to_one is (score + 1.) / 2 and any other mode is the score
    itself, both on the score as a float. Every comparison is strict, so a
    boundary value fails the test made against it: it lands in the upper
    bucket wherever the test is [<], and in neutral at ternary's 0.33,
    where the test is [>]. *)
Theorem scale_sentiment_score_table (score : pyval) (x : xnum) :
  as_number score = Some x ->
  scale_sentiment_score score "binary"
    = Ok (PStr (if xltb x (XFin 0 0) then "negative" else "positive"))
  /\ scale_sentiment_score score "ternary"
    = Ok (PStr (if xltb x (xnum_of_float (SFopp f64_0_33)) then "negative"
                else if xltb (xnum_of_float f64_0_33) x then "positive"
                else "neutral"))
  /\ scale_sentiment_score score "quinary"
    = Ok (PStr (if xltb x (xnum_of_float (SFopp f64_0_66))
                then "highly negative"
                else if xltb x (xnum_of_float (SFopp f64_0_33))
                then "negative"
                else if xltb x (xnum_of_float f64_0_33) then "neutral"
                else if xltb x (xnum_of_float f64_0_66) then "positive"
                else "highly positive"))
  /\ (forall f, py_float score = Ok f ->
      scale_sentiment_score score "rescale_zero_to_one"
        = Ok (PFloat (f64_div (f64_add f f64_1) f64_2)))
  /\ (forall mode f,
      mode <> "binary" -> mode <> "ternary" -> mode <> "quinary" ->
      mode <> "rescale_zero_to_one" ->
      py_float score = Ok f ->
      scale_sentiment_score score mode = Ok (PFloat f))
  /\ (scale_sentiment_score (PInt 0) "binary" = Ok (PStr "positive")
      /\ scale_sentiment_score (PFloat (SFopp f64_0_33)) "ternary"
         = Ok (PStr "neutral")
      /\ scale_sentiment_score (PFloat f64_0_33) "ternary"
         = Ok (PStr "neutral")
      /\ scale_sentiment_score (PFloat (SFopp f64_0_66)) "quinary"
         = Ok (PStr "negative")
      /\ scale_sentiment_score (PFloat (SFopp f64_0_33)) "quinary"
         = Ok (PStr "neutral")
      /\ scale_sentiment_score (PFloat f64_0_33) "quinary"
         = Ok (PStr "positive")
      /\ scale_sentiment_score (PFloat f64_0_66) "quinary"
         = Ok (PStr "highly positive"))
  /\ (scale_sentiment_score (PFloat f64_0_34) "ternary" = Ok (PStr "positive")
      /\ scale_sentiment_score (PFloat (SFopp f64_0_34)) "ternary"
         = Ok (PStr "negative")
      /\ scale_sentiment_score (PFloat f64_zero) "rescale_zero_to_one"
         = Ok (PFloat f64_0_5)).
Proof.
  intros Hx.
  assert (Hlt : forall b y, as_number b = Some y ->
                            py_lt score b = Ok (xltb x y))
    by (intros; now apply py_lt_number).
  assert (Hgt : forall b y, as_number b = Some y ->
                            py_gt score b = Ok (xltb y x))
    by (intros; unfold py_gt; now apply py_lt_number).
  refine (conj _ (conj _ (conj _ (conj _ (conj _ (conj _ _))))));
    [| | | | |repeat split; vm_compute; reflexivity
     |repeat split; vm_compute; reflexivity].
- unfold scale_sentiment_score. simpl (String.eqb _ _). cbv iota.
  now rewrite (Hlt (PInt 0) (XFin 0 0) eq_refl).
- unfold scale_sentiment_score. simpl (String.eqb _ _). cbv iota.
  rewrite (Hlt (PFloat (SFopp f64_0_33)) _ eq_refl). cbn [rbind].
  destruct (xltb x _); [reflexivity|].
  rewrite (Hgt (PFloat f64_0_33) _ eq_refl). cbn [rbind].
  now destruct (xltb _ x).
- unfold scale_sentiment_score. simpl (String.eqb _ _). cbv iota.
  rewrite (Hlt (PFloat (SFopp f64_0_66)) _ eq_refl). cbn [rbind].
  destruct (xltb x _); [reflexivity|].
  rewrite (Hlt (PFloat (SFopp f64_0_33)) _ eq_refl). cbn [rbind].
  destruct (xltb x _); [reflexivity|].
  rewrite (Hlt (PFloat f64_0_33) _ eq_refl). cbn [rbind].
  destruct (xltb x _); [reflexivity|].
  rewrite (Hlt (PFloat f64_0_66) _ eq_refl). cbn [rbind].
  now destruct (xltb x _).
- intros f Hf. unfold scale_sentiment_score; simpl.
  now rewrite (py_add_float_number _ _ _ _ Hx Hf).
- intros mode f H1 H2 H3 H4 Hf. unfold scale_sentiment_score.
  apply String.eqb_neq in H1, H2, H3, H4.
  rewrite H1, H2, H3, H4, Hf. reflexivity.
Qed.
End ScaleSentimentScore.

Lemma scale_sentiment_score_table_witness :
  as_number (PFloat f64_0_34) = Some (XFin 6124895493223875 (-54))
  /\ @scale_sentiment_score Sample.runtime (PFloat f64_0_34) "quinary"
     = Ok (PStr "positive").
Proof.
  split; [reflexivity|].
  exact (proj1 (proj2 (proj2
    (@scale_sentiment_score_table Sample.runtime (PFloat f64_0_34) _ eq_refl)))).
Defined.

(** C1 (as stated). Not every boundary value lands in the bucket above it:
    under ternary, 0.33 is neutral, not positive. *)
Lemma ternary_upper_boundary_is_neutral :
  ~ (forall R : PyRuntime, @boundaries_in_upper_bucket R).
Proof.
  intros Hc.
  specialize (Hc Sample.runtime "ternary" f64_0_33 "neutral" "positive").
  assert (Hin : In ("ternary", f64_0_33, "neutral", "positive")
                   bucket_boundaries) by (simpl; tauto).
  specialize (Hc Hin). vm_compute in Hc. discriminate Hc.
Qed.

(** ** Rounding to binary64 stays below a power of two *)

Lemma digits2_pos_bounds (p : positive) :
  2 ^ (Zpos (digits2_pos p) - 1) <= Zpos p < 2 ^ Zpos (digits2_pos p).
Proof.
  induction p as [p IH|p IH|]; simpl digits2_pos.
  - rewrite Pos2Z.inj_succ, Z.pow_succ_r by lia.
    replace (Z.succ (Zpos (digits2_pos p)) - 1)
      with (Z.succ (Zpos (digits2_pos p) - 1)) by lia.
    rewrite Z.pow_succ_r by lia. lia.
  - rewrite Pos2Z.inj_succ, Z.pow_succ_r by lia.
    replace (Z.succ (Zpos (digits2_pos p)) - 1)
      with (Z.succ (Zpos (digits2_pos p) - 1)) by lia.
    rewrite Z.pow_succ_r by lia. lia.
  - simpl. lia.
Qed.

Lemma shr_1_below (mrs : shr_record) (n : Z) :
  below mrs (2 * n) -> below (shr_1 mrs) n.
Proof.
  destruct mrs as [m r s]. unfold below. cbn [shr_m shr_r shr_s].
  intros [Hm Hrs].
  destruct m as [|[p|p|]|p]; cbn [shr_1 shr_m shr_r shr_s orb]; try lia.
  - split; [lia|]. intros Hs. specialize (Hrs Hs). lia.
  - split; [lia|]. intros Hs. specialize (Hrs Hs). lia.
Qed.

Lemma pow2_double (a : Z) : 0 <= a -> 2 ^ (2 * a) = 2 ^ a * 2 ^ a.
Proof. intros. replace (2 * a) with (a + a) by lia. now rewrite Z.pow_add_r. Qed.

Lemma iter_shr_1_below (p : positive) :
  forall mrs n, below mrs (2 ^ Zpos p * n) -> below (SpecFloat.iter_pos shr_1 p mrs) n.
Proof.
  induction p as [p IH|p IH|]; intros mrs n Hb; cbn [SpecFloat.iter_pos].
  - apply IH, IH, shr_1_below.
    replace (2 * (2 ^ Zpos p * (2 ^ Zpos p * n))) with (2 ^ Zpos p~1 * n); [exact Hb|].
    rewrite (Pos2Z.inj_xI p). rewrite Z.pow_add_r by lia.
    rewrite (pow2_double (Z.pos p)) by lia. ring.
  - apply IH, IH.
    replace (2 ^ Zpos p * (2 ^ Zpos p * n)) with (2 ^ Zpos p~0 * n); [exact Hb|].
    rewrite (Pos2Z.inj_xO p). rewrite (pow2_double (Z.pos p)) by lia. ring.
  - apply shr_1_below. now rewrite Z.pow_1_r in Hb.
Qed.

Lemma shr_below (mrs : shr_record) (e n k : Z) :
  e + Z.max 0 n <= k ->
  below mrs (2 ^ (k - e)) ->
  snd (shr mrs e n) = e + Z.max 0 n /\
  below (fst (shr mrs e n)) (2 ^ (k - snd (shr mrs e n))).
Proof.
  intros Hk Hb. destruct n as [|p|p]; simpl.
  - rewrite Z.add_0_r. now split.
  - split; [lia|]. apply iter_shr_1_below.
    rewrite <- Z.pow_add_r by lia.
    now replace (Zpos p + (k - (e + Zpos p))) with (k - e) by lia.
  - rewrite Z.add_0_r. now split.
Qed.

Lemma round_nearest_even_below (mrs : shr_record) (n : Z) :
  below mrs n ->
  0 <= round_nearest_even (shr_m mrs) (loc_of_shr_record mrs) <= n.
Proof.
  destruct mrs as [m r s]. unfold below; simpl. intros [Hm Hrs].
  destruct r, s; simpl in *; try destruct (Z.even m); lia.
Qed.

Lemma Zdigits2_le (m e k : Z) :
  0 <= m -> e <= k -> m <= 2 ^ (k - e) -> Zdigits2 m + e <= k + 1.
Proof.
  intros Hm He Hb. destruct m as [|p|p]; simpl; try lia.
  pose proof (digits2_pos_bounds p) as [Hd _].
  assert (Hlt : 2 ^ (Zpos (digits2_pos p) - 1) < 2 ^ (k - e + 1)).
  { rewrite Z.pow_add_r, Z.pow_1_r by lia. lia. }
  apply Z.pow_lt_mono_r_iff in Hlt; lia.
Qed.

Lemma fexp_le (x k : Z) :
  x <= k + 1 -> -1074 <= k -> fexp prec emax x <= Z.max (k - 52) (-1074).
Proof. unfold fexp, emin, prec, emax. lia. Qed.

Lemma binary_round_aux_le_pow2 (mx ex : Z) (lx : location) (k : Z) :
  0 <= mx -> -1074 <= k <= 1023 -> ex <= k -> ex <= 971 ->
  mx <= 2 ^ (k - ex) ->
  (lx <> loc_Exact -> mx < 2 ^ (k - ex)) ->
  at_most_pow2 (binary_round_aux prec emax false mx ex lx) k.
Proof.
  intros Hm Hk He He' Hb Hl.
  unfold binary_round_aux, shr_fexp.
  set (n1 := fexp prec emax (Zdigits2 mx + ex) - ex).
  assert (Hf1 : fexp prec emax (Zdigits2 mx + ex) <= Z.max (k - 52) (-1074)).
  { apply fexp_le; [|lia]. now apply Zdigits2_le. }
  assert (B0 : below (shr_record_of_loc mx lx) (2 ^ (k - ex))).
  { unfold below. destruct lx as [|[]]; simpl; (split; [lia|]);
      intros Hrs; try discriminate; apply Hl; discriminate. }
  destruct (shr_below _ ex n1 k ltac:(lia) B0) as [E1 B1].
  destruct (shr (shr_record_of_loc mx lx) ex n1) as [mrs1 e1]. simpl in E1, B1.
  pose proof (round_nearest_even_below _ _ B1) as R.
  set (m2 := round_nearest_even (shr_m mrs1) (loc_of_shr_record mrs1)) in *.
  set (n2 := fexp prec emax (Zdigits2 m2 + e1) - e1).
  assert (He1 : e1 <= k) by lia.
  assert (Hf2 : fexp prec emax (Zdigits2 m2 + e1) <= Z.max (k - 52) (-1074)).
  { apply fexp_le; [|lia]. apply Zdigits2_le; lia. }
  assert (B2 : below (shr_record_of_loc m2 loc_Exact) (2 ^ (k - e1))).
  { unfold below; simpl. split; [lia|discriminate]. }
  destruct (shr_below _ e1 n2 k ltac:(lia) B2) as [E2 B3].
  destruct (shr (shr_record_of_loc m2 loc_Exact) e1 n2) as [mrs2 e2].
  simpl in E2, B3. destruct B3 as [[B3 B4] _].
  destruct (shr_m mrs2) as [|p|p] eqn:Hp.
  - now left.
  - right. replace (e2 <=? emax - prec)%Z with true.
    + exists p, e2. repeat split; lia.
    + symmetry. apply Z.leb_le. unfold emax, prec. lia.
  - lia.
Qed.

Lemma iter_xO_pow2 (d m : positive) :
  Zpos (Pos.iter xO m d) = Zpos m * 2 ^ Zpos d.
Proof.
  induction d as [|d IH] using Pos.peano_ind.
  - simpl. lia.
  - rewrite Pos.iter_succ, Pos2Z.inj_xO, IH, Pos2Z.inj_succ.
    rewrite Z.pow_succ_r by lia. ring.
Qed.

Lemma shl_align_spec (m : positive) (e e' : Z) :
  snd (shl_align m e e') = Z.min e e' /\
  Zpos (fst (shl_align m e e')) = Zpos m * 2 ^ (e - Z.min e e').
Proof.
  unfold shl_align. destruct (e' - e) as [|d|d] eqn:Hd; simpl.
  - replace (Z.min e e') with e by lia. rewrite Z.sub_diag. split; lia.
  - replace (Z.min e e') with e by lia. rewrite Z.sub_diag. split; lia.
  - replace (Z.min e e') with e' by lia. split; [reflexivity|].
    rewrite iter_xO_pow2. f_equal. f_equal. lia.
Qed.

Lemma binary_normalize_le_pow2 (m e k : Z) :
  0 <= m -> -1074 <= k <= 1023 -> e <= k -> e <= 971 ->
  m <= 2 ^ (k - e) ->
  at_most_pow2 (binary_normalize prec emax m e false) k.
Proof.
  intros Hm Hk He He' Hb. destruct m as [|p|p]; [now left| |lia].
  unfold binary_normalize, binary_round.
  destruct (shl_align_spec p e (fexp prec emax (Zpos (digits2_pos p) + e)))
    as [E1 E2].
  destruct (shl_align p e _) as [mz ez]. simpl in E1, E2.
  assert (Hez : ez <= e) by lia.
  assert (Hmz : Zpos mz <= 2 ^ (k - ez)).
  { rewrite E2, <- E1.
    replace (k - ez) with ((k - e) + (e - ez)) by lia.
    rewrite Z.pow_add_r by lia.
    apply Z.mul_le_mono_nonneg_r; [apply Z.pow_nonneg|]; lia. }
  apply binary_round_aux_le_pow2; try lia. intros Hne. now elim Hne.
Qed.


Lemma fin_compare_scale (m1 e1 m2 e2 c : Z) :
  c <= e1 -> c <= e2 ->
  fin_compare m1 e1 m2 e2 = Z.compare (m1 * 2 ^ (e1 - c)) (m2 * 2 ^ (e2 - c)).
Proof.
  intros H1 H2. unfold fin_compare.
  set (d := Z.min e1 e2).
  replace (e1 - c) with ((e1 - d) + (d - c)) by lia.
  replace (e2 - c) with ((e2 - d) + (d - c)) by lia.
  rewrite !Z.pow_add_r, !Z.mul_assoc by lia.
  assert (Ht : 0 < 2 ^ (d - c)) by (apply Z.pow_pos_nonneg; lia).
  generalize dependent (2 ^ (d - c)). intros t Ht.
  generalize (m1 * 2 ^ (e1 - d)) (m2 * 2 ^ (e2 - d)). intros a b.
  destruct (Z.compare_spec a b) as [E|L|G]; symmetry.
  - apply Z.compare_eq_iff. now rewrite E.
  - apply Z.compare_lt_iff. nia.
  - apply Z.compare_gt_iff. nia.
Qed.

Lemma xleb_fin (m1 e1 m2 e2 c : Z) :
  c <= e1 -> c <= e2 ->
  xleb (XFin m1 e1) (XFin m2 e2) = true <->
  m1 * 2 ^ (e1 - c) <= m2 * 2 ^ (e2 - c).
Proof.
  intros H1 H2. unfold xleb, xcompare.
  rewrite (fin_compare_scale m1 e1 m2 e2 c H1 H2).
  destruct (Z.compare_spec (m1 * 2 ^ (e1 - c)) (m2 * 2 ^ (e2 - c)));
    split; (lia || discriminate || reflexivity || idtac).
Qed.

Lemma f64_add_one_range (f : spec_float) :
  xleb (XFin (-1) 0) (xnum_of_float f) = true ->
  xleb (xnum_of_float f) (XFin 1 0) = true ->
  at_most_pow2 (f64_add f f64_1) 1.
Proof.
  destruct f as [s|s| |s m e]; simpl; try discriminate.
  - intros _ _. right. exists 4503599627370496%positive, (-52).
    repeat split; [lia|]. now vm_compute.
  - destruct s; discriminate.
  - intros Hlo Hhi. unfold f64_add, f64_1, SFadd.
    set (ez := Z.min e (-52)).
    apply (xleb_fin _ _ _ _ ez) in Hlo; try lia.
    apply (xleb_fin _ _ _ _ ez) in Hhi; try lia.
    destruct (shl_align_spec m e ez) as [_ E1].
    destruct (shl_align_spec 4503599627370496 (-52) ez) as [_ E2].
    replace (Z.min e ez) with ez in E1 by lia.
    replace (Z.min (-52) ez) with ez in E2 by lia.
    rewrite E1, E2.
    assert (P : Z.pos 4503599627370496 * 2 ^ (-52 - ez) = 2 ^ (0 - ez)).
    { change (Z.pos 4503599627370496) with (2 ^ 52).
      rewrite <- Z.pow_add_r by lia. f_equal. lia. }
    rewrite P.
    assert (Q : 2 ^ (1 - ez) = 2 * 2 ^ (0 - ez)).
    { replace (1 - ez) with (Z.succ (0 - ez)) by lia.
      now rewrite Z.pow_succ_r by lia. }
    apply binary_normalize_le_pow2; try lia.
    + destruct s; simpl in *; lia.
    + rewrite Q. destruct s; simpl in *; lia.
Qed.

Lemma f64_div_two_range (r : spec_float) :
  at_most_pow2 r 1 -> at_most_pow2 (f64_div r f64_2) 0.
Proof.
  intros [->|(m & e & -> & He & Hm)]; [now left|].
  unfold f64_div, f64_2, SFdiv, SFdiv_core_binary.
  change (Zdigits2 (Z.pos 4503599627370496)) with 53.
  cbn [Zdigits2].
  set (e' := Z.min _ _).
  assert (Hd : Zpos (digits2_pos m) + e <= 1 + 1).
  { apply (Zdigits2_le (Zpos m)); lia. }
  assert (He' : e' <= -53).
  { subst e'. unfold fexp, emin, prec, emax. lia. }
  assert (He'' : e' <= e + 51) by (subst e'; lia).
  set (s := e - -51 - e').
  set (m' := match s with Z0 => Zpos m | Zpos _ => Z.shiftl (Zpos m) s | Zneg _ => 0 end).
  assert (Hm' : m' = Zpos m * 2 ^ s).
  { subst m'. destruct s as [|p|p] eqn:Hs.
    - simpl. lia.
    - apply Z.shiftl_mul_pow2. lia.
    - lia. }
  assert (Hb : m' <= 4503599627370496 * 2 ^ (0 - e')).
  { rewrite Hm'. change 4503599627370496 with (2 ^ 52).
    rewrite <- Z.pow_add_r by lia.
    replace (52 + (0 - e')) with ((1 - e) + s) by lia.
    rewrite Z.pow_add_r by lia.
    apply Z.mul_le_mono_nonneg_r; [apply Z.pow_nonneg|]; lia. }
  assert (Hm0 : 0 <= m').
  { rewrite Hm'. apply Z.mul_nonneg_nonneg; [|apply Z.pow_nonneg]; lia. }
  pose proof (Z_div_mod m' 4503599627370496 eq_refl) as Hdm.
  destruct (Z.div_eucl m' 4503599627370496) as [q rm].
  destruct Hdm as [Hq Hr].
  apply binary_round_aux_le_pow2; try lia.
  intros Hloc.
  assert (rm <> 0).
  { intros ->. apply Hloc. reflexivity. }
  lia.
Qed.

Lemma at_most_one_range (r : spec_float) :
  at_most_pow2 r 0 ->
  xleb (XFin 0 0) (xnum_of_float r) = true /\
  xleb (xnum_of_float r) (XFin 1 0) = true.
Proof.
  intros [->|(m & e & -> & He & Hm)]; [now vm_compute|].
  simpl. split.
  - apply (xleb_fin _ _ _ _ e); lia.
  - apply (xleb_fin _ _ _ _ e); try lia.
    rewrite Z.sub_diag. simpl (2 ^ 0). lia.
Qed.

(** ** The scale on the valid range of scores *)

Section ScaleRange.
Context `{PyRuntime}.

Lemma rescale_float_range (f : spec_float) :
  xleb (XFin (-1) 0) (xnum_of_float f) = true ->
  xleb (xnum_of_float f) (XFin 1 0) = true ->
  xleb (XFin 0 0) (xnum_of_float (f64_div (f64_add f f64_1) f64_2)) = true /\
  xleb (xnum_of_float (f64_div (f64_add f f64_1) f64_2)) (XFin 1 0) = true.
Proof.
  intros Hlo Hhi.
  now apply at_most_one_range, f64_div_two_range, f64_add_one_range.
Qed.

(** C7. For a score between -1 and 1, the three categorical modes return
    a label of their fixed set, and rescale_zero_to_one returns a float
    between 0 and 1. *)
Theorem scale_sentiment_score_range (score : pyval) (x : xnum) :
  as_number score = Some x ->
  xleb (XFin (-1) 0) x = true ->
  xleb x (XFin 1 0) = true ->
  (exists l, scale_sentiment_score score "binary" = Ok (PStr l)
             /\ In l ["negative"; "positive"])
  /\ (exists l, scale_sentiment_score score "ternary" = Ok (PStr l)
                /\ In l ["negative"; "neutral"; "positive"])
  /\ (exists l, scale_sentiment_score score "quinary" = Ok (PStr l)
                /\ In l ["highly negative"; "negative"; "neutral";
                         "positive"; "highly positive"])
  /\ (exists r, scale_sentiment_score score "rescale_zero_to_one"
                = Ok (PFloat r)
                /\ xleb (XFin 0 0) (xnum_of_float r) = true
                /\ xleb (xnum_of_float r) (XFin 1 0) = true).
Proof.
  intros Hx Hlo Hhi.
  assert (Hlt : forall b y, as_number b = Some y ->
                            py_lt score b = Ok (xltb x y))
    by (intros; now apply py_lt_number).
  assert (Hgt : forall b y, as_number b = Some y ->
                            py_gt score b = Ok (xltb y x))
    by (intros; unfold py_gt; now apply py_lt_number).
  refine (conj _ (conj _ (conj _ _))).
  - unfold scale_sentiment_score. simpl (String.eqb _ _). cbv iota.
    rewrite (Hlt (PInt 0) (XFin 0 0) eq_refl). cbn [rbind].
    destruct (xltb x _); eexists; (split; [reflexivity|simpl; tauto]).
  - unfold scale_sentiment_score. simpl (String.eqb _ _). cbv iota.
    rewrite (Hlt (PFloat (SFopp f64_0_33)) _ eq_refl). cbn [rbind].
    destruct (xltb x _); [eexists; split; [reflexivity|simpl; tauto]|].
    rewrite (Hgt (PFloat f64_0_33) _ eq_refl). cbn [rbind].
    destruct (xltb _ x); eexists; (split; [reflexivity|simpl; tauto]).
  - unfold scale_sentiment_score. simpl (String.eqb _ _). cbv iota.
    rewrite (Hlt (PFloat (SFopp f64_0_66)) _ eq_refl). cbn [rbind].
    destruct (xltb x _); [eexists; split; [reflexivity|simpl; tauto]|].
    rewrite (Hlt (PFloat (SFopp f64_0_33)) _ eq_refl). cbn [rbind].
    destruct (xltb x _); [eexists; split; [reflexivity|simpl; tauto]|].
    rewrite (Hlt (PFloat f64_0_33) _ eq_refl). cbn [rbind].
    destruct (xltb x _); [eexists; split; [reflexivity|simpl; tauto]|].
    rewrite (Hlt (PFloat f64_0_66) _ eq_refl). cbn [rbind].
    destruct (xltb x _); eexists; (split; [reflexivity|simpl; tauto]).
  - unfold scale_sentiment_score. simpl (String.eqb _ _). cbv iota.
    destruct score as [|b|z|f| | |]; try discriminate Hx;
      injection Hx as <-.
    + destruct b; eexists; (split; [reflexivity|split; vm_compute; reflexivity]).
    + apply (xleb_fin _ _ _ _ 0) in Hlo, Hhi; try lia.
      rewrite Z.sub_diag in Hlo, Hhi. change (2 ^ 0) with 1 in Hlo, Hhi.
      assert (Hz : z = -1 \/ z = 0 \/ z = 1) by lia.
      destruct Hz as [->|[->| ->]]; eexists;
        (split; [reflexivity|split; vm_compute; reflexivity]).
    + eexists. split; [reflexivity|]. now apply rescale_float_range.
Qed.
End ScaleRange.

Lemma scale_sentiment_score_range_witness :
  as_number (PFloat (SFopp f64_0_34)) = Some (XFin (-6124895493223875) (-54))
  /\ xleb (XFin (-1) 0) (XFin (-6124895493223875) (-54)) = true
  /\ xleb (XFin (-6124895493223875) (-54)) (XFin 1 0) = true
  /\ exists r, @scale_sentiment_score Sample.runtime (PFloat (SFopp f64_0_34))
                 "rescale_zero_to_one" = Ok (PFloat r)
               /\ xleb (XFin 0 0) (xnum_of_float r) = true
               /\ xleb (xnum_of_float r) (XFin 1 0) = true.
Proof.
  refine (conj eq_refl (conj eq_refl (conj eq_refl _))).
  exact (proj2 (proj2 (proj2
    (@scale_sentiment_score_range Sample.runtime (PFloat (SFopp f64_0_34)) _
       eq_refl eq_refl eq_refl)))).
Defined.

(** ** Client construction *)

Section GetClient.
Context `{PyRuntime} `{GoogleSdk}.

(** C6. A key that [json.loads] rejects makes [get_client] raise the
    [ValueError] with its own message, whatever exception the decoder
    raised; without a key the client is built with no credentials, which
    leaves their resolution to the library. *)
Theorem get_client_invalid_key :
  (forall (key : pyval) (e : exn),
      json_loads key = Raise e ->
      get_client (Some key)
      = Raise (ValueError "GCP service account key is not valid JSON."))
  /\ get_client None = LanguageServiceClient None.
Proof.
  split; [|reflexivity].
  intros key e He. unfold get_client. now rewrite He.
Qed.
End GetClient.

(** ** Running the row computations *)

Section Runs.
Context {A B : Type}.

Lemma mbind_ok (m : M A) (k : A -> M B) (r : gmap string pyval) (a : A) :
  outcome (m r) = Ok a ->
  mbind m k r
  = Run (final (k a (final (m r))))
        (writes (m r) ++ writes (k a (final (m r))))
        (outcome (k a (final (m r)))).
Proof. intros Ha. unfold mbind. now rewrite Ha. Qed.

Lemma mbind_raise (m : M A) (k : A -> M B) (r : gmap string pyval) (e : exn) :
  outcome (m r) = Raise e ->
  mbind m k r = Run (final (m r)) (writes (m r)) (Raise e).
Proof. intros Ha. unfold mbind. now rewrite Ha. Qed.

Lemma mbind_outcome_ok (m : M A) (k : A -> M B) (r : gmap string pyval)
    (b : B) :
  outcome (mbind m k r) = Ok b ->
  exists a, outcome (m r) = Ok a /\ outcome (k a (final (m r))) = Ok b.
Proof.
  unfold mbind. destruct (outcome (m r)) as [a|e] eqn:Ha; simpl.
  - intros Hb. now exists a.
  - discriminate.
Qed.
End Runs.

(** ** The sentiment formatter *)

Section Sentiment.
Context `{PyRuntime} `{GoogleSdk} `{PluginIo}.

Lemma format_sentiment_analysis_run (response_column sentiment_scale
    column_prefix : string) (error_handling : ErrorHandlingEnum)
    (row : gmap string pyval) (raw response sentiment score magnitude : pyval) :
  row !! response_column = Some raw ->
  safe_json_loads raw error_handling = Ok response ->
  py_get response "documentSentiment" (PDict ∅) = Ok sentiment ->
  py_get sentiment "score" PNone = Ok score ->
  py_get sentiment "magnitude" PNone = Ok magnitude ->
  format_sentiment_analysis response_column sentiment_scale column_prefix
    error_handling row
  = (score_block score sentiment_scale
       (generate_unique "score" (dom row) column_prefix)
       (generate_unique "score_scaled" (dom row) column_prefix);;
     magnitude_block magnitude
       (generate_unique "magnitude" (dom row) column_prefix)) row.
Proof.
  intros Hraw Hresp Hsent Hscore Hmag.
  unfold format_sentiment_analysis, mbind at 1 2 3 4 5 6, getitem, keys, lift.
  cbn [outcome final writes]. rewrite Hraw. cbn [outcome final writes].
  rewrite Hresp. cbn [outcome final writes].
  rewrite Hsent. cbn [outcome final writes].
  rewrite Hscore. cbn [outcome final writes].
  rewrite Hmag. cbn [outcome final writes app].
  unfold score_block, magnitude_block.
  destruct (mbind _ _ row) as [fr wr ou]. reflexivity.
Qed.

Lemma format_sentiment_analysis_inv (response_column sentiment_scale
    column_prefix : string) (error_handling : ErrorHandlingEnum)
    (row : gmap string pyval) :
  outcome (format_sentiment_analysis response_column sentiment_scale
             column_prefix error_handling row) = Ok tt ->
  exists raw response sentiment score magnitude,
    row !! response_column = Some raw
    /\ safe_json_loads raw error_handling = Ok response
    /\ py_get response "documentSentiment" (PDict ∅) = Ok sentiment
    /\ py_get sentiment "score" PNone = Ok score
    /\ py_get sentiment "magnitude" PNone = Ok magnitude.
Proof.
  unfold format_sentiment_analysis, mbind at 1 2 3 4 5 6, getitem, keys, lift.
  cbn [outcome final writes].
  destruct (row !! response_column) as [raw|] eqn:E1;
    cbn [outcome final writes]; [|discriminate].
  destruct (safe_json_loads raw error_handling) as [response|] eqn:E2;
    cbn [outcome final writes]; [|discriminate].
  destruct (py_get response _ _) as [sentiment|] eqn:E3;
    cbn [outcome final writes]; [|discriminate].
  destruct (py_get sentiment "score" _) as [score|] eqn:E4;
    cbn [outcome final writes]; [|discriminate].
  destruct (py_get sentiment "magnitude" _) as [magnitude|] eqn:E5;
    cbn [outcome final writes]; [|discriminate].
  intros _. exists raw, response, sentiment, score, magnitude.
  repeat split; assumption.
Qed.

Lemma score_block_none (scale c1 c2 : string) (r : gmap string pyval) :
  score_block PNone scale c1 c2 r
  = Run (<[c2 := PNone]> (<[c1 := PNone]> r)) [c1; c2] (Ok tt).
Proof. reflexivity. Qed.

Lemma score_block_some (score : pyval) (scale c1 c2 : string)
    (r : gmap string pyval) (f : spec_float) (v : pyval) :
  score <> PNone ->
  py_float score = Ok f ->
  scale_sentiment_score score scale = Ok v ->
  score_block score scale c1 c2 r
  = Run (<[c2 := v]> (<[c1 := PFloat f]> r)) [c1; c2] (Ok tt).
Proof.
  intros Hn Hf Hv.
  destruct score; try (now elim Hn);
    unfold score_block, mbind, lift, setitem; cbn [outcome final writes];
    rewrite Hf; cbn [outcome final writes]; rewrite Hv; reflexivity.
Qed.

Lemma score_block_inv (score : pyval) (scale c1 c2 : string)
    (r : gmap string pyval) :
  outcome (score_block score scale c1 c2 r) = Ok tt ->
  score = PNone
  \/ (score <> PNone
      /\ exists f v, py_float score = Ok f
                     /\ scale_sentiment_score score scale = Ok v).
Proof.
  destruct score; [now left|..]; intros Ho; right; (split; [discriminate|]);
    revert Ho; unfold score_block, mbind, lift, setitem;
    cbn [outcome final writes];
    (destruct (py_float _) as [fl|]; cbn [outcome final writes];
     [|discriminate]);
    (destruct (scale_sentiment_score _ _) as [vl|];
     cbn [outcome final writes]; [|discriminate]);
    intros _; now exists fl, vl.
Qed.

Lemma magnitude_block_other (magnitude : pyval) (c3 k : string)
    (r : gmap string pyval) :
  k <> c3 -> final (magnitude_block magnitude c3 r) !! k = r !! k.
Proof.
  intros Hk.
  destruct magnitude; unfold magnitude_block, mbind, lift, setitem;
    cbn [outcome final writes];
    try (destruct (py_float _); cbn [outcome final writes]);
    try reflexivity; now rewrite lookup_insert_ne.
Qed.

Lemma magnitude_block_none (c3 : string) (r : gmap string pyval) :
  magnitude_block PNone c3 r = Run (<[c3 := PNone]> r) [c3] (Ok tt).
Proof. reflexivity. Qed.

Lemma magnitude_block_some (magnitude : pyval) (c3 : string)
    (r : gmap string pyval) (f : spec_float) :
  magnitude <> PNone ->
  py_float magnitude = Ok f ->
  magnitude_block magnitude c3 r = Run (<[c3 := PFloat f]> r) [c3] (Ok tt).
Proof.
  intros Hn Hf.
  destruct magnitude; try (now elim Hn);
    unfold magnitude_block, mbind, lift, setitem; cbn [outcome final writes];
    rewrite Hf; reflexivity.
Qed.

Lemma scale_sentiment_score_not_none (score : pyval) (scale : string)
    (v : pyval) :
  scale_sentiment_score score scale = Ok v -> v <> PNone.
Proof.
  unfold scale_sentiment_score, py_gt. intros Hs ->. revert Hs.
  repeat (destruct (String.eqb scale _));
    repeat (match goal with
            | |- context [rbind ?x _] =>
                destruct x as [[]|]; cbn [rbind]
            | |- context [rbind ?x _] => destruct x; cbn [rbind]
            end);
    discriminate.
Qed.

Lemma scale_sentiment_score_number (score : pyval) (scale : string)
    (x : xnum) (f : spec_float) :
  as_number score = Some x -> py_float score = Ok f ->
  exists v, scale_sentiment_score score scale = Ok v.
Proof.
  intros Hx Hf. unfold scale_sentiment_score, py_gt.
  rewrite (py_add_float_number _ _ _ _ Hx Hf), Hf.
  rewrite (py_lt_number score (PInt 0) x _ Hx eq_refl).
  rewrite (py_lt_number score (PFloat (SFopp f64_0_33)) x _ Hx eq_refl).
  rewrite (py_lt_number score (PFloat (SFopp f64_0_66)) x _ Hx eq_refl).
  rewrite (py_lt_number score (PFloat f64_0_33) x _ Hx eq_refl).
  rewrite (py_lt_number score (PFloat f64_0_66) x _ Hx eq_refl).
  rewrite (py_lt_number (PFloat f64_0_33) score _ x eq_refl Hx).
  cbn [rbind].
  repeat (destruct (String.eqb scale _)); repeat (destruct (xltb _ _));
    eexists; reflexivity.
Qed.
End Sentiment.

Section SentimentClaims.
Context `{PyRuntime} `{GoogleSdk} `{PluginIo}.

Lemma safe_json_loads_decoded (raw v : pyval) (error_handling : ErrorHandlingEnum) :
  json_loads raw = Ok v -> safe_json_loads raw error_handling = Ok v.
Proof. intros Hv. unfold safe_json_loads. now rewrite Hv. Qed.

(** C4. When the response decodes to an object whose sentiment object is
    absent or is an object, and each of its two fields is either absent
    (or null) or a number that converts to a float, the formatter returns
    without raising; an absent score leaves the null sentinel in the score
    column and in the scaled-score column, an absent magnitude leaves it in
    the magnitude column. The three column names are assumed distinct. *)
Theorem format_sentiment_analysis_missing_fields
    (response_column sentiment_scale column_prefix : string)
    (error_handling : ErrorHandlingEnum) (row : gmap string pyval)
    (raw response : pyval) (sentiment : gmap string pyval) :
  let score := default PNone (sentiment !! "score") in
  let magnitude := default PNone (sentiment !! "magnitude") in
  let c1 := generate_unique "score" (dom row) column_prefix in
  let c2 := generate_unique "score_scaled" (dom row) column_prefix in
  let c3 := generate_unique "magnitude" (dom row) column_prefix in
  let r := format_sentiment_analysis response_column sentiment_scale
             column_prefix error_handling row in
  row !! response_column = Some raw ->
  json_loads raw = Ok response ->
  py_get response "documentSentiment" (PDict ∅) = Ok (PDict sentiment) ->
  (score = PNone
   \/ exists x f, as_number score = Some x /\ py_float score = Ok f) ->
  (magnitude = PNone
   \/ exists x f, as_number magnitude = Some x /\ py_float magnitude = Ok f) ->
  c1 <> c2 -> c1 <> c3 -> c2 <> c3 ->
  outcome r = Ok tt
  /\ (score = PNone ->
      final r !! c1 = Some PNone /\ final r !! c2 = Some PNone)
  /\ (magnitude = PNone -> final r !! c3 = Some PNone).
Proof.
  intros score magnitude c1 c2 c3 r Hraw Hjson Hsent Hscore Hmag H12 H13 H23.
  assert (Hs : exists v1 v2,
             score_block score sentiment_scale c1 c2 row
             = Run (<[c2 := v2]> (<[c1 := v1]> row)) [c1; c2] (Ok tt)
             /\ (score = PNone -> v1 = PNone /\ v2 = PNone)).
  { destruct Hscore as [->|(x & f & Hx & Hf)].
    - exists PNone, PNone. split; [apply score_block_none|auto].
    - destruct (scale_sentiment_score_number score sentiment_scale x f Hx Hf)
        as [v Hv].
      assert (Hn : score <> PNone) by (intros E; rewrite E in Hx; discriminate).
      exists (PFloat f), v. split; [now apply score_block_some|].
      intros E. now elim Hn. }
  assert (Hm : forall r0, exists v3,
             magnitude_block magnitude c3 r0
             = Run (<[c3 := v3]> r0) [c3] (Ok tt)
             /\ (magnitude = PNone -> v3 = PNone)).
  { intros r0. destruct Hmag as [->|(x & f & Hx & Hf)].
    - exists PNone. split; [apply magnitude_block_none|auto].
    - assert (Hn : magnitude <> PNone)
        by (intros E; rewrite E in Hx; discriminate).
      exists (PFloat f). split; [now apply magnitude_block_some|].
      intros E. now elim Hn. }
  destruct Hs as (v1 & v2 & Hs & Hs0).
  destruct (Hm (<[c2 := v2]> (<[c1 := v1]> row))) as (v3 & Hm1 & Hm0).
  assert (Hr : r = Run (<[c3 := v3]> (<[c2 := v2]> (<[c1 := v1]> row)))
                       [c1; c2; c3] (Ok tt)).
  { subst r.
    rewrite (format_sentiment_analysis_run _ _ _ _ _ raw response
               (PDict sentiment) score magnitude Hraw
               (safe_json_loads_decoded _ _ _ Hjson) Hsent eq_refl eq_refl).
    fold c1 c2 c3.
    rewrite (mbind_ok _ _ _ tt) by (now rewrite Hs).
    rewrite Hs. cbn [final writes outcome]. now rewrite Hm1. }
  rewrite Hr. cbn [final writes outcome]. split; [reflexivity|]. split.
  - intros E. destruct (Hs0 E) as [-> ->]. split.
    + rewrite lookup_insert_ne by congruence.
      rewrite lookup_insert_ne by congruence. apply lookup_insert_eq.
    + rewrite lookup_insert_ne by congruence. apply lookup_insert_eq.
  - intros E. rewrite (Hm0 E). apply lookup_insert_eq.
Qed.

(** C10. Whenever the formatter returns, the scaled-score column holds
    the null sentinel exactly when the score column does, which is exactly
    when the sentiment object has no score ([get] answers [None]); whatever
    the magnitude is. With a score, the scaled column holds the value of
    [scale_sentiment_score] on that score. The three column names are
    assumed distinct. *)
Theorem scaled_score_null_iff_score_null
    (response_column sentiment_scale column_prefix : string)
    (error_handling : ErrorHandlingEnum) (row : gmap string pyval) :
  let c1 := generate_unique "score" (dom row) column_prefix in
  let c2 := generate_unique "score_scaled" (dom row) column_prefix in
  let c3 := generate_unique "magnitude" (dom row) column_prefix in
  let r := format_sentiment_analysis response_column sentiment_scale
             column_prefix error_handling row in
  c1 <> c2 -> c1 <> c3 -> c2 <> c3 ->
  outcome r = Ok tt ->
  exists raw response sentiment score,
    row !! response_column = Some raw
    /\ safe_json_loads raw error_handling = Ok response
    /\ py_get response "documentSentiment" (PDict ∅) = Ok sentiment
    /\ py_get sentiment "score" PNone = Ok score
    /\ (final r !! c2 = Some PNone <-> final r !! c1 = Some PNone)
    /\ (final r !! c1 = Some PNone <-> score = PNone)
    /\ (score <> PNone ->
        exists v, scale_sentiment_score score sentiment_scale = Ok v
                  /\ final r !! c2 = Some v).
Proof.
  intros c1 c2 c3 r H12 H13 H23 Hok.
  destruct (format_sentiment_analysis_inv _ _ _ _ _ Hok)
    as (raw & response & sentiment & score & magnitude
        & Hraw & Hresp & Hsent & Hscore & Hmag).
  exists raw, response, sentiment, score.
  repeat (split; [assumption|]).
  subst r. revert Hok.
  rewrite (format_sentiment_analysis_run _ _ _ _ _ raw response sentiment
             score magnitude Hraw Hresp Hsent Hscore Hmag).
  fold c1 c2 c3. intros Hok.
  destruct (mbind_outcome_ok _ _ _ _ Hok) as ([] & Hsb & _).
  rewrite (mbind_ok _ _ _ tt Hsb). cbn [final].
  rewrite !magnitude_block_other by congruence.
  destruct (score_block_inv _ _ _ _ _ Hsb) as [->|(Hn & f & v & Hf & Hv)].
  - rewrite score_block_none. cbn [final].
    rewrite lookup_insert_eq.
    rewrite lookup_insert_ne by congruence. rewrite lookup_insert_eq.
    repeat split; auto. intros Hne. now elim Hne.
  - rewrite (score_block_some _ _ _ _ _ f v Hn Hf Hv). cbn [final].
    rewrite lookup_insert_eq.
    rewrite lookup_insert_ne by congruence. rewrite lookup_insert_eq.
    pose proof (scale_sentiment_score_not_none _ _ _ Hv) as Hvn.
    repeat split; try (intros E; congruence).
    intros _. now exists v.
Qed.
End SentimentClaims.

Lemma format_sentiment_analysis_missing_fields_witness :
  let row := Sample.row "magnitude only" in
  let r := @format_sentiment_analysis Sample.runtime Sample.plugin_io
             "response" "ternary" "sentiment_api" LOG row in
  row !! "response" = Some (PStr "magnitude only")
  /\ @json_loads Sample.runtime (PStr "magnitude only")
     = Ok Sample.magnitude_only_doc
  /\ outcome r = Ok tt
  /\ final r !! "sentiment_api_score" = Some PNone
  /\ final r !! "sentiment_api_score_scaled" = Some PNone
  /\ final r !! "sentiment_api_magnitude" = Some (PFloat f64_2).
Proof.
  cbv zeta.
  pose proof (@format_sentiment_analysis_missing_fields Sample.runtime
                Sample.plugin_io "response" "ternary" "sentiment_api" LOG
                (Sample.row "magnitude only") (PStr "magnitude only")
                Sample.magnitude_only_doc {["magnitude" := PInt 2]}
                eq_refl eq_refl eq_refl (or_introl eq_refl)
                (or_intror (ex_intro _ (XFin 2 0)
                              (ex_intro _ f64_2 (conj eq_refl eq_refl)))))
    as W.
  cbv zeta in W.
  assert (D12 : @generate_unique Sample.plugin_io "score"
                  (dom (Sample.row "magnitude only")) "sentiment_api"
                <> @generate_unique Sample.plugin_io "score_scaled"
                  (dom (Sample.row "magnitude only")) "sentiment_api")
    by (vm_compute; discriminate).
  assert (D13 : @generate_unique Sample.plugin_io "score"
                  (dom (Sample.row "magnitude only")) "sentiment_api"
                <> @generate_unique Sample.plugin_io "magnitude"
                  (dom (Sample.row "magnitude only")) "sentiment_api")
    by (vm_compute; discriminate).
  assert (D23 : @generate_unique Sample.plugin_io "score_scaled"
                  (dom (Sample.row "magnitude only")) "sentiment_api"
                <> @generate_unique Sample.plugin_io "magnitude"
                  (dom (Sample.row "magnitude only")) "sentiment_api")
    by (vm_compute; discriminate).
  destruct (W D12 D13 D23) as (W1 & W2 & _).
  destruct (W2 eq_refl) as [W3 W4].
  repeat split; try assumption; vm_compute; reflexivity.
Defined.

Lemma scaled_score_null_iff_score_null_witness :
  let row := Sample.row "sentiment" in
  let r := @format_sentiment_analysis Sample.runtime Sample.plugin_io
             "response" "ternary" "sentiment_api" LOG row in
  outcome r = Ok tt
  /\ (final r !! "sentiment_api_score_scaled" = Some PNone
      <-> final r !! "sentiment_api_score" = Some PNone).
Proof.
  cbv zeta.
  assert (D12 : @generate_unique Sample.plugin_io "score"
                  (dom (Sample.row "sentiment")) "sentiment_api"
                <> @generate_unique Sample.plugin_io "score_scaled"
                  (dom (Sample.row "sentiment")) "sentiment_api")
    by (vm_compute; discriminate).
  assert (D13 : @generate_unique Sample.plugin_io "score"
                  (dom (Sample.row "sentiment")) "sentiment_api"
                <> @generate_unique Sample.plugin_io "magnitude"
                  (dom (Sample.row "sentiment")) "sentiment_api")
    by (vm_compute; discriminate).
  assert (D23 : @generate_unique Sample.plugin_io "score_scaled"
                  (dom (Sample.row "sentiment")) "sentiment_api"
                <> @generate_unique Sample.plugin_io "magnitude"
                  (dom (Sample.row "sentiment")) "sentiment_api")
    by (vm_compute; discriminate).
  assert (Hok : outcome (@format_sentiment_analysis Sample.runtime
                           Sample.plugin_io "response" "ternary"
                           "sentiment_api" LOG (Sample.row "sentiment"))
                = Ok tt) by (vm_compute; reflexivity).
  destruct (@scaled_score_null_iff_score_null Sample.runtime Sample.plugin_io
              "response" "ternary" "sentiment_api" LOG
              (Sample.row "sentiment") D12 D13 D23 Hok)
    as (raw & response & sentiment & score & _ & _ & _ & _ & W & _).
  split; [exact Hok|exact W].
Defined.

(** ** Stepping through a computation *)

Section Steps.
Context {A : Type}.

Lemma run_eta (x : run A) : Run (final x) (writes x) (outcome x) = x.
Proof. now destruct x. Qed.

Lemma run_ret {B : Type} (b : B) (k : B -> M A) (r : gmap string pyval) :
  mbind (mret b) k r = k b r.
Proof. unfold mbind, mret. cbn [outcome final writes app]. apply run_eta. Qed.

Lemma run_keys (k : gset string -> M A) (r : gmap string pyval) :
  mbind keys k r = k (dom r) r.
Proof. unfold mbind, keys. cbn [outcome final writes app]. apply run_eta. Qed.

Lemma run_lift_ok {B : Type} (b : B) (k : B -> M A) (r : gmap string pyval) :
  mbind (lift (Ok b)) k r = k b r.
Proof. unfold mbind, lift. cbn [outcome final writes app]. apply run_eta. Qed.

Lemma run_lift_raise {B : Type} (e : exn) (k : B -> M A)
    (r : gmap string pyval) :
  mbind (lift (Raise e)) k r = Run r [] (Raise e).
Proof. reflexivity. Qed.

Lemma run_getitem (c : string) (v : pyval) (k : pyval -> M A)
    (r : gmap string pyval) :
  r !! c = Some v -> mbind (getitem c) k r = k v r.
Proof.
  intros Hc. unfold mbind, getitem. cbn [outcome final writes].
  rewrite Hc. cbn [app]. apply run_eta.
Qed.

Lemma run_getitem_missing (c : string) (k : pyval -> M A)
    (r : gmap string pyval) :
  r !! c = None -> mbind (getitem c) k r = Run r [] (Raise KeyError).
Proof.
  intros Hc. unfold mbind, getitem. cbn [outcome final writes].
  now rewrite Hc.
Qed.

Lemma run_setitem (c : string) (v : pyval) (k : unit -> M A)
    (r : gmap string pyval) :
  mbind (setitem c v) k r
  = Run (final (k tt (<[c := v]> r))) (c :: writes (k tt (<[c := v]> r)))
        (outcome (k tt (<[c := v]> r))).
Proof. reflexivity. Qed.
End Steps.

(** ** The frame of a computation

    [preserves r0 m Q]: run from any row that extends [r0], [m] leaves a
    row that still extends [r0], assigns no key of [r0], and returns only
    values that satisfy [Q]. *)

Section Frame.

Lemma preserves_ret (r0 : gmap string pyval) {A} (a : A) (Q : A -> Prop) :
  Q a -> preserves r0 (mret a) Q.
Proof.
  intros Ha r Hr. cbn. repeat split; [assumption|constructor|].
  intros a' E. injection E as <-. exact Ha.
Qed.

Lemma preserves_lift (r0 : gmap string pyval) {A} (x : result A) :
  preserves r0 (lift x) (fun _ => True).
Proof. intros r Hr. cbn. repeat split; [assumption|constructor]. Qed.

Lemma preserves_getitem (r0 : gmap string pyval) (c : string) :
  preserves r0 (getitem c) (fun _ => True).
Proof. intros r Hr. cbn. repeat split; [assumption|constructor]. Qed.

Lemma preserves_keys (r0 : gmap string pyval) :
  preserves r0 keys (fun ks => dom r0 ⊆ ks).
Proof.
  intros r Hr. cbn. repeat split; [assumption|constructor|].
  intros ks E. injection E as <-. now apply subseteq_dom.
Qed.

Lemma preserves_setitem (r0 : gmap string pyval) (c : string) (v : pyval) :
  c ∉ dom r0 -> preserves r0 (setitem c v) (fun _ => True).
Proof.
  intros Hc r Hr. cbn. repeat split.
  - apply insert_subseteq_r; [|assumption]. now apply not_elem_of_dom.
  - repeat constructor. assumption.
Qed.

Lemma preserves_bind (r0 : gmap string pyval) {A B} (m : M A) (k : A -> M B)
    (Q : A -> Prop) (Q' : B -> Prop) :
  preserves r0 m Q ->
  (forall a, Q a -> preserves r0 (k a) Q') ->
  preserves r0 (mbind m k) Q'.
Proof.
  intros Hm Hk r Hr. destruct (Hm r Hr) as (H1 & H2 & H3).
  unfold mbind. destruct (outcome (m r)) as [a|e] eqn:Ho.
  - destruct (Hk a (H3 a eq_refl) (final (m r)) H1) as (K1 & K2 & K3).
    cbn. repeat split; [assumption| |assumption].
    apply Forall_app. now split.
  - cbn. repeat split; [assumption|assumption|discriminate].
Qed.

Lemma preserves_weaken (r0 : gmap string pyval) {A} (m : M A)
    (Q Q' : A -> Prop) :
  preserves r0 m Q -> (forall a, Q a -> Q' a) -> preserves r0 m Q'.
Proof.
  intros Hm HQ r Hr. destruct (Hm r Hr) as (H1 & H2 & H3).
  repeat split; auto.
Qed.
End Frame.

(** ** The formatters only add keys *)

Section FrameOfFormatters.
Context `{PyRuntime} `{GoogleSdk} `{PluginIo}.

Lemma fresh_not_in (r0 : gmap string pyval) (ks : gset string)
    (name prefix : string) :
  fresh_names -> dom r0 ⊆ ks -> generate_unique name ks prefix ∉ dom r0.
Proof. intros Hf Hks Hin. apply (Hf name ks prefix). set_solver. Qed.

Ltac frame_step :=
  first
    [ apply preserves_ret; exact I
    | apply preserves_setitem; now apply fresh_not_in
    | eapply preserves_bind;
      [ first [ apply preserves_keys | apply preserves_lift
              | apply preserves_getitem
              | apply preserves_setitem; now apply fresh_not_in ]
      | intros ? ? ] ].

Lemma preserves_entity_type_loop (r0 : gmap string pyval) (types : list string)
    (entities : pyval) (prefix : string) :
  fresh_names ->
  preserves r0 (entity_type_loop types entities prefix) (fun _ => True).
Proof.
  intros Hf. induction types as [|n rest IH]; cbn [entity_type_loop].
  - now apply preserves_ret.
  - do 5 frame_step.
    eapply preserves_bind; [|intros ? ?; exact IH].
    destruct (Nat.eqb _ 0); frame_step.
Qed.

Lemma preserves_category_loop (r0 : gmap string pyval) (ns : list nat)
    (categories : list pyval) (prefix : string) :
  fresh_names ->
  preserves r0 (category_loop ns categories prefix) (fun _ => True).
Proof.
  intros Hf. induction ns as [|n rest IH]; cbn [category_loop].
  - now apply preserves_ret.
  - frame_step.
    eapply preserves_bind; [|intros ? ?; exact IH].
    destruct (categories !! n); repeat frame_step.
Qed.

Lemma preserves_format_named_entity_recognition (r0 : gmap string pyval)
    (response_column : string) (output_format : OutputFormatEnum)
    (column_prefix : string) (error_handling : ErrorHandlingEnum) :
  fresh_names ->
  preserves r0
    (format_named_entity_recognition response_column output_format
       column_prefix error_handling) (fun _ => True).
Proof.
  intros Hf. unfold format_named_entity_recognition.
  do 2 frame_step. destruct output_format.
  - repeat frame_step.
  - frame_step. now apply preserves_entity_type_loop.
Qed.

Lemma preserves_format_sentiment_analysis (r0 : gmap string pyval)
    (response_column sentiment_scale column_prefix : string)
    (error_handling : ErrorHandlingEnum) :
  fresh_names ->
  preserves r0
    (format_sentiment_analysis response_column sentiment_scale column_prefix
       error_handling) (fun _ => True).
Proof.
  intros Hf. unfold format_sentiment_analysis.
  do 6 frame_step.
  eapply preserves_bind; [|intros ? ?].
  - match goal with |- preserves _ (match ?s with _ => _ end) _ =>
      destruct s end; repeat frame_step.
  - match goal with |- preserves _ (match ?s with _ => _ end) _ =>
      destruct s end; repeat frame_step.
Qed.

Lemma preserves_format_text_classification (r0 : gmap string pyval)
    (response_column : string) (output_format : OutputFormatEnum)
    (num_categories : Z) (column_prefix : string)
    (error_handling : ErrorHandlingEnum) :
  fresh_names ->
  preserves r0
    (format_text_classification response_column output_format num_categories
       column_prefix error_handling) (fun _ => True).
Proof.
  intros Hf. unfold format_text_classification.
  do 2 frame_step. destruct output_format.
  - repeat frame_step.
  - do 2 frame_step. now apply preserves_category_loop.
Qed.

(** C8. Provided [generate_unique] returns names that are not among the
    existing ones, each formatter, on every row and whether it returns or
    raises, leaves every key of the row in place with its value and assigns
    only keys that the row did not have. *)
Theorem formatters_only_add_keys (row : gmap string pyval)
    (response_column sentiment_scale column_prefix : string)
    (output_format : OutputFormatEnum) (num_categories : Z)
    (error_handling : ErrorHandlingEnum) :
  fresh_names ->
  let ner := format_named_entity_recognition response_column output_format
               column_prefix error_handling row in
  let sentiment := format_sentiment_analysis response_column sentiment_scale
                     column_prefix error_handling row in
  let classification :=
    format_text_classification response_column output_format num_categories
      column_prefix error_handling row in
  ((forall k v, row !! k = Some v -> final ner !! k = Some v)
   /\ Forall (fun k => row !! k = None) (writes ner))
  /\ ((forall k v, row !! k = Some v -> final sentiment !! k = Some v)
      /\ Forall (fun k => row !! k = None) (writes sentiment))
  /\ ((forall k v, row !! k = Some v -> final classification !! k = Some v)
      /\ Forall (fun k => row !! k = None) (writes classification)).
Proof.
  intros Hf ner sentiment classification.
  assert (Hgen : forall {A} (m : M A),
             preserves row m (fun _ => True) ->
             (forall k v, row !! k = Some v -> final (m row) !! k = Some v)
             /\ Forall (fun k => row !! k = None) (writes (m row))).
  { intros A m Hm. destruct (Hm row (reflexivity row)) as (H2 & H3 & _).
    split.
    - intros k v Hk. now apply (lookup_weaken row).
    - eapply Forall_impl; [exact H3|].
      intros k Hk. now apply not_elem_of_dom. }
  repeat split; apply Hgen;
    [ now apply preserves_format_named_entity_recognition
    | now apply preserves_format_named_entity_recognition
    | now apply preserves_format_sentiment_analysis
    | now apply preserves_format_sentiment_analysis
    | now apply preserves_format_text_classification
    | now apply preserves_format_text_classification ].
Qed.
End FrameOfFormatters.

(** ** The loop over the entity types *)

Section EntityTypes.
Context `{PyRuntime} `{GoogleSdk} `{PluginIo}.

Lemma entity_names_dicts (entities : list pyval) (n : string) :
  Forall is_dict entities ->
  entity_names entities n = Ok (names_of_type entities n).
Proof.
  induction 1 as [|e rest [d ->] _ IH]; [reflexivity|].
  cbn [entity_names py_get rbind]. unfold names_of_type in *.
  cbn [List.filter dict_get].
  destruct (py_eq_str _ n); [|exact IH].
  rewrite IH. reflexivity.
Qed.

Lemma entity_type_loop_run (types : list string) (entities : list pyval)
    (prefix : string) :
  Forall is_dict entities ->
  forall row, exists ws,
    entity_type_loop types (PList entities) prefix row
    = Run (entity_type_fill types (entity_type_value entities) prefix row)
          ws (Ok tt).
Proof.
  intros Hes. induction types as [|n rest IH]; intros row;
    cbn [entity_type_loop entity_type_fill].
  - now exists [].
  - rewrite run_keys. cbn [py_iter rbind].
    rewrite (entity_names_dicts _ _ Hes), run_lift_ok.
    set (c := generate_unique _ (dom row) prefix).
    rewrite run_setitem.
    rewrite (run_getitem c (PList (names_of_type entities n)))
      by apply lookup_insert_eq.
    cbn [py_len]. rewrite run_lift_ok.
    unfold entity_type_value.
    destruct (names_of_type entities n) as [|x l] eqn:E; cbn [length Nat.eqb].
    + rewrite run_setitem, insert_insert_eq.
      destruct (IH (<[c := PStr ""]> row)) as [ws Hws].
      rewrite Hws. cbn [final writes outcome]. eexists; reflexivity.
    + rewrite run_ret.
      destruct (IH (<[c := PList (x :: l)]> row)) as [ws Hws].
      rewrite Hws. cbn [final writes outcome]. eexists; reflexivity.
Qed.

Lemma entity_type_fill_frame (types : list string) (value : string -> pyval)
    (prefix : string) :
  fresh_names ->
  forall row k, is_Some (row !! k) ->
    entity_type_fill types value prefix row !! k = row !! k.
Proof.
  intros Hf. induction types as [|n rest IH]; intros row k Hk;
    cbn [entity_type_fill]; [reflexivity|].
  assert (Hne : generate_unique ("entity_type_" ++ lower n) (dom row) prefix
                <> k).
  { intros <-.
    apply (Hf ("entity_type_" ++ lower n) (dom row) prefix).
    now apply elem_of_dom. }
  rewrite IH; rewrite lookup_insert_ne by exact Hne; [reflexivity|exact Hk].
Qed.

Lemma entity_type_fill_lookup (types : list string) (value : string -> pyval)
    (prefix : string) :
  fresh_names ->
  forall row (i : nat) n c,
    types !! i = Some n ->
    entity_type_columns types (dom row) prefix !! i = Some c ->
    entity_type_fill types value prefix row !! c = Some (value n).
Proof.
  intros Hf. induction types as [|n0 rest IH]; intros row i n c Hn Hc;
    [discriminate|].
  cbn [entity_type_fill entity_type_columns] in *.
  destruct i as [|j]; cbn in Hn, Hc.
  - injection Hn as ->. injection Hc as <-.
    rewrite entity_type_fill_frame by
      (try assumption; rewrite lookup_insert_eq; eauto).
    apply lookup_insert_eq.
  - apply (IH _ j); [assumption|]. now rewrite dom_insert_L.
Qed.

Lemma entity_type_columns_spec (types : list string) (prefix : string) :
  fresh_names ->
  forall ks,
    length (entity_type_columns types ks prefix) = length types
    /\ NoDup (entity_type_columns types ks prefix)
    /\ Forall (fun c => c ∉ ks) (entity_type_columns types ks prefix).
Proof.
  intros Hf. induction types as [|n rest IH]; intros ks;
    cbn [entity_type_columns length].
  - repeat split; constructor.
  - set (c := generate_unique _ ks prefix).
    destruct (IH ({[c]} ∪ ks)) as (L & N & F).
    assert (F' : Forall (fun c' => c' <> c /\ c' ∉ ks)
                   (entity_type_columns rest ({[c]} ∪ ks) prefix)).
    { eapply Forall_impl; [exact F|]. intros c' Hc'. set_solver. }
    repeat split.
    + now rewrite L.
    + constructor; [|exact N].
      intros Hin. rewrite Forall_forall in F'.
      now destruct (F' c Hin).
    + constructor; [apply Hf|].
      eapply Forall_impl; [exact F'|]. now intros c' [_ ?].
Qed.

Lemma entity_type_fill_dom (types : list string) (value : string -> pyval)
    (prefix : string) :
  forall row,
    dom (entity_type_fill types value prefix row)
    = dom row ∪ list_to_set (entity_type_columns types (dom row) prefix).
Proof.
  induction types as [|n rest IH]; intros row;
    cbn [entity_type_fill entity_type_columns list_to_set].
  - set_solver.
  - rewrite IH, dom_insert_L. set_solver.
Qed.
End EntityTypes.

Section EntityClaims.
Context `{PyRuntime} `{GoogleSdk} `{PluginIo}.

Lemma names_of_type_sublist (entities : list pyval) (n : string) :
  sublist (names_of_type entities n)
          ((fun e => dict_get e "name" PNone) <$> entities).
Proof.
  unfold names_of_type. induction entities as [|e rest IH];
    cbn [List.filter fmap list_fmap]; [constructor|].
  destruct (py_eq_str _ n); cbn [fmap list_fmap]; now constructor.
Qed.

(** C2. When the response decodes to an object whose entities are a list
    of objects, the formatter in MULTIPLE_COLUMNS format returns and has
    added one column per entity type, all distinct and new to the row;
    the column of a type holds the names of the entities of that type, in
    the order of the response, or the empty string when there is none. On
    the single entity A of type PERSON, the PERSON column holds [A] and
    every other column the empty string. [generate_unique] is assumed to
    return names that are not among the existing ones. *)
Theorem format_named_entity_recognition_columns (row : gmap string pyval)
    (response_column column_prefix : string)
    (error_handling : ErrorHandlingEnum) (raw : pyval)
    (d : gmap string pyval) (entities : list pyval) :
  fresh_names ->
  row !! response_column = Some raw ->
  json_loads raw = Ok (PDict d) ->
  d !! "entities" = Some (PList entities) ->
  Forall is_dict entities ->
  let r := format_named_entity_recognition response_column MULTIPLE_COLUMNS
             column_prefix error_handling row in
  let cols := entity_type_columns entity_type_members (dom row)
                column_prefix in
  outcome r = Ok tt
  /\ length cols = length entity_type_members
  /\ NoDup cols
  /\ Forall (fun c => row !! c = None) cols
  /\ dom (final r) = dom row ∪ list_to_set cols
  /\ (forall (i : nat) n c,
        entity_type_members !! i = Some n -> cols !! i = Some c ->
        final r !! c
        = Some (match names_of_type entities n with
                | [] => PStr ""
                | l => PList l
                end)
        /\ names_of_type entities n
           = (fun e => dict_get e "name" PNone)
               <$> List.filter
                     (fun e => py_eq_str (dict_get e "type" (PStr "")) n)
                     entities
        /\ sublist (names_of_type entities n)
                   ((fun e => dict_get e "name" PNone) <$> entities))
  /\ (entities = [PDict (<["name" := PStr "A"]> {["type" := PStr "PERSON"]})] ->
      forall (i : nat) n c,
        entity_type_members !! i = Some n -> cols !! i = Some c ->
        final r !! c
        = Some (if String.eqb n "PERSON" then PList [PStr "A"] else PStr "")).
Proof.
  intros Hf Hraw Hjson Hd Hes r cols.
  destruct (entity_type_loop_run entity_type_members entities column_prefix
              Hes row) as [ws Hws].
  assert (Hr : r = Run (entity_type_fill entity_type_members
                          (entity_type_value entities) column_prefix row)
                       ws (Ok tt)).
  { subst r. unfold format_named_entity_recognition.
    rewrite (run_getitem _ raw) by exact Hraw.
    rewrite (safe_json_loads_decoded _ _ _ Hjson), run_lift_ok.
    cbn [py_get]. rewrite Hd. cbn [default]. now rewrite run_lift_ok. }
  destruct (entity_type_columns_spec entity_type_members column_prefix Hf
              (dom row)) as (L & N & F).
  assert (Hlook : forall (i : nat) n c,
             entity_type_members !! i = Some n -> cols !! i = Some c ->
             final r !! c = Some (entity_type_value entities n)).
  { intros i n c Hn Hc. rewrite Hr. cbn [final].
    now apply (entity_type_fill_lookup _ _ _ Hf row i). }
  rewrite Hr at 1 2. cbn [final outcome].
  repeat split; try assumption.
  - eapply Forall_impl; [exact F|]. intros c Hc. now apply not_elem_of_dom.
  - apply entity_type_fill_dom.
  - now apply (Hlook i).
  - apply names_of_type_sublist.
  - intros -> i n c Hn Hc. rewrite (Hlook i n c Hn Hc).
    unfold entity_type_value, names_of_type. cbn [List.filter].
    replace (dict_get (PDict (<["name" := PStr "A"]> {["type" := PStr "PERSON"]}))
               "type" (PStr "")) with (PStr "PERSON")
      by (vm_compute; reflexivity).
    cbn [py_eq_str]. rewrite String.eqb_sym.
    destruct (String.eqb n "PERSON"); [|reflexivity].
    vm_compute. reflexivity.
Qed.
End EntityClaims.

(** ** The order of numbers *)

Section NumberOrder.

Lemma fin_compare_antisym (m1 e1 m2 e2 : Z) :
  fin_compare m2 e2 m1 e1 = CompOpp (fin_compare m1 e1 m2 e2).
Proof.
  unfold fin_compare. rewrite (Z.min_comm e2 e1). apply Z.compare_antisym.
Qed.

Lemma xcompare_antisym (a b : xnum) :
  xcompare b a = CompOpp <$> xcompare a b.
Proof.
  destruct a as [|[]|m1 e1], b as [|[]|m2 e2]; try reflexivity.
  cbn. f_equal. apply fin_compare_antisym.
Qed.

Lemma xltb_negb_xleb (a b : xnum) :
  a <> XNaN -> b <> XNaN -> xltb a b = negb (xleb b a).
Proof.
  intros Ha Hb. unfold xltb, xleb. rewrite (xcompare_antisym a b).
  destruct a as [|[]|m1 e1], b as [|[]|m2 e2]; try reflexivity;
    try (now elim Ha); try (now elim Hb).
  cbn. now destruct (fin_compare m1 e1 m2 e2).
Qed.

Lemma xleb_not_nan (a b : xnum) :
  xleb a b = true -> a <> XNaN /\ b <> XNaN.
Proof. destruct a as [|[]|], b as [|[]|]; cbn; intros; now split. Qed.

Lemma xleb_trans (a b c : xnum) :
  xleb a b = true -> xleb b c = true -> xleb a c = true.
Proof.
  destruct a as [|[]|m1 e1], b as [|[]|m2 e2], c as [|[]|m3 e3];
    try reflexivity; try discriminate.
  set (k := Z.min e1 (Z.min e2 e3)).
  intros H12 H23.
  apply (xleb_fin _ _ _ _ k) in H12; [|lia|lia].
  apply (xleb_fin _ _ _ _ k) in H23; [|lia|lia].
  apply (xleb_fin _ _ _ _ k); lia.
Qed.

Lemma xleb_total (a b : xnum) :
  a <> XNaN -> b <> XNaN -> xleb a b = true \/ xleb b a = true.
Proof.
  intros Ha Hb. destruct (xleb b a) eqn:E; [now right|left].
  pose proof (xltb_negb_xleb a b Ha Hb) as Hlt. rewrite E in Hlt.
  unfold xltb in Hlt. unfold xleb.
  now destruct (xcompare a b) as [[]|].
Qed.

Lemma xeqb_xleb (a b : xnum) :
  xeqb a b = true -> xleb a b = true /\ xleb b a = true.
Proof.
  unfold xeqb, xleb. rewrite (xcompare_antisym a b).
  now destruct (xcompare a b) as [[]|].
Qed.

(** Two numbers equal to a third are not strictly ordered. *)
Lemma xltb_not_same (a b q : xnum) :
  xltb a b = true -> xeqb a q = true -> xeqb b q = true -> False.
Proof.
  intros Hlt Ha Hb.
  destruct (xeqb_xleb _ _ Ha) as [Haq Hqa].
  destruct (xeqb_xleb _ _ Hb) as [Hbq Hqb].
  pose proof (xleb_trans _ _ _ Hbq Hqa) as Hba.
  destruct (xleb_not_nan _ _ Hba) as [Hnb Hna].
  rewrite (xltb_negb_xleb a b Hna Hnb), Hba in Hlt. discriminate.
Qed.
End NumberOrder.

(** ** Sorting the categories *)

Section SortCategories.
Context `{PyRuntime}.

Lemma number_of_some (v : pyval) :
  number_of v <> XNaN -> as_number v = Some (number_of v).
Proof.
  unfold number_of. destruct (as_number v); cbn; [reflexivity|].
  intros Hn. now elim Hn.
Qed.

Lemma py_lt_categories (a b : pyval) :
  is_category a -> is_category b ->
  py_lt (dict_get a "confidence" PNone) (dict_get b "confidence" PNone)
  = Ok (negb (xleb (number_of (dict_get b "confidence" PNone))
                   (number_of (dict_get a "confidence" PNone)))).
Proof.
  intros [_ Ha] [_ Hb].
  rewrite (py_lt_number _ _ _ _ (number_of_some _ Ha) (number_of_some _ Hb)).
  now rewrite xltb_negb_xleb.
Qed.

Lemma insert_desc_categories (l : list pyval) (c : pyval) :
  is_category c -> Forall is_category l ->
  exists r,
    insert_desc (dict_get c "confidence" PNone) c (with_confidence <$> l)
    = Ok (with_confidence <$> r)
    /\ Permutation r (c :: l)
    /\ (StronglySorted conf_ge l -> StronglySorted conf_ge r)
    /\ (forall q, List.filter (same_confidence q) r
                  = List.filter (same_confidence q) (c :: l)).
Proof.
  intros Hc Hl. induction Hl as [|y rest Hy Hrest IH].
  - exists [c]. repeat split; auto. intros _. repeat constructor.
  - cbn [fmap list_fmap insert_desc with_confidence].
    rewrite (py_lt_categories c y Hc Hy). cbn [rbind].
    destruct (xleb _ _) eqn:Hle; cbn [negb].
    + exists (c :: y :: rest). repeat split; auto.
      intros Hs. constructor; [exact Hs|].
      constructor; [exact Hle|].
      apply StronglySorted_inv in Hs as [_ Hall].
      eapply Forall_impl; [exact Hall|]. intros z Hz.
      unfold conf_ge in *. now apply (xleb_trans _ _ _ Hz).
    + destruct IH as (r & Hr & Hp & Hs & Hst).
      fold (with_confidence <$> rest). rewrite Hr. cbn [rbind].
      exists (y :: r). split; [reflexivity|]. split; [|split].
      * rewrite Hp. apply perm_swap.
      * intros Hsort. apply StronglySorted_inv in Hsort as [Hsr Hall].
        constructor; [now apply Hs|].
        rewrite Hp. constructor; [|exact Hall].
        unfold conf_ge.
        destruct Hc as [_ Hc], Hy as [_ Hy].
        destruct (xleb_total _ _ Hc Hy) as [E|E]; [exact E|].
        rewrite E in Hle. discriminate.
      * intros q. cbn [List.filter]. rewrite Hst. cbn [List.filter].
        destruct (same_confidence q y) eqn:Ey,
                 (same_confidence q c) eqn:Ec; try reflexivity.
        exfalso. unfold same_confidence in Ey, Ec.
        apply (xltb_not_same _ _ q) with (2 := Ec) (3 := Ey).
        destruct Hc as [_ Hc], Hy as [_ Hy].
        now rewrite (xltb_negb_xleb _ _ Hc Hy), Hle.
Qed.

Lemma sort_desc_categories (l : list pyval) :
  Forall is_category l ->
  exists s,
    sort_desc (with_confidence <$> l) = Ok (with_confidence <$> s)
    /\ Permutation s l
    /\ StronglySorted conf_ge s
    /\ (forall q, List.filter (same_confidence q) s
                  = List.filter (same_confidence q) l).
Proof.
  induction 1 as [|c rest Hc Hrest IH].
  - exists []. repeat split; auto. constructor.
  - destruct IH as (s & Hs & Hp & Hsort & Hst).
    assert (Hfs : Forall is_category s).
    { rewrite Forall_forall in *. intros z Hz. apply Hrest.
      now rewrite <- Hp. }
    destruct (insert_desc_categories s c Hc Hfs) as (r & Hr & Hp' & Hs' & Hst').
    exists r. cbn [fmap list_fmap sort_desc with_confidence].
    fold (with_confidence <$> rest). rewrite Hs. cbn [rbind].
    split; [exact Hr|]. split; [|split].
    + rewrite Hp'. now constructor.
    + now apply Hs'.
    + intros q. rewrite Hst'. cbn [List.filter]. now rewrite Hst.
Qed.

Lemma keyed_confidence (l : list pyval) :
  Forall is_dict l ->
  keyed (fun x => py_get x "confidence" PNone) l = Ok (with_confidence <$> l).
Proof.
  induction 1 as [|c rest [d ->] _ IH]; [reflexivity|].
  cbn [keyed py_get rbind]. rewrite IH. reflexivity.
Qed.

Lemma sorted_reverse_categories (l : list pyval) :
  Forall is_category l ->
  exists s,
    sorted_reverse (fun x => py_get x "confidence" PNone) (PList l) = Ok s
    /\ Permutation s l
    /\ StronglySorted conf_ge s
    /\ (forall q, List.filter (same_confidence q) s
                  = List.filter (same_confidence q) l).
Proof.
  intros Hl. destruct (sort_desc_categories l Hl) as (s & Hs & Hrest).
  exists s. split; [|exact Hrest].
  unfold sorted_reverse. cbn [py_iter rbind].
  rewrite keyed_confidence
    by (eapply Forall_impl; [exact Hl|]; now intros c [Hd _]).
  cbn [rbind]. rewrite Hs. cbn [rbind]. f_equal.
  rewrite <- list_fmap_compose. apply list_fmap_id.
Qed.
End SortCategories.

(** ** The loop over the category slots *)

Section CategorySlots.
Context `{PyRuntime} `{GoogleSdk} `{PluginIo}.

Lemma mbind_assoc {A B C : Type} (m : M A) (k1 : A -> M B) (k2 : B -> M C)
    (r : gmap string pyval) :
  mbind (mbind m k1) k2 r = mbind m (fun a => mbind (k1 a) k2) r.
Proof.
  unfold mbind. destruct (m r) as [f w [a|e]]; cbn [final writes outcome];
    [|reflexivity].
  destruct (k1 a f) as [f' w' [b|e']]; cbn [final writes outcome];
    [|reflexivity].
  now rewrite app_assoc.
Qed.

Lemma run_setitem_eq {A : Type} (c : string) (v : pyval) (k : unit -> M A)
    (r f : gmap string pyval) (ws : list string) (o : result A) :
  k tt (<[c := v]> r) = Run f ws o ->
  mbind (setitem c v) k r = Run f (c :: ws) o.
Proof. intros Hk. rewrite run_setitem, Hk. reflexivity. Qed.

Lemma category_loop_run (ns : list nat) (sorted : list pyval)
    (prefix : string) :
  Forall is_dict sorted ->
  forall row, exists ws,
    category_loop ns sorted prefix row
    = Run (category_fill ns sorted prefix row) ws (Ok tt).
Proof.
  intros Hs. induction ns as [|n rest IH]; intros row;
    cbn [category_loop category_fill].
  - now exists [].
  - rewrite run_keys.
    set (c1 := generate_unique ("category_" ++ pretty n) (dom row) prefix).
    set (c2 := generate_unique _ (dom row) prefix).
    destruct (IH (<[c2 := slot_confidence sorted n]>
                    (<[c1 := slot_name sorted n]> row))) as [ws Hws].
    exists (c1 :: c2 :: ws). revert Hws.
    unfold slot_name, slot_confidence.
    destruct (sorted !! n) as [c|] eqn:E; intros Hws.
    + rewrite Forall_lookup in Hs. destruct (Hs n c E) as [d ->].
      rewrite mbind_assoc. cbn [py_get]. rewrite run_lift_ok.
      rewrite mbind_assoc. apply run_setitem_eq.
      rewrite mbind_assoc, run_lift_ok.
      apply run_setitem_eq. exact Hws.
    + rewrite mbind_assoc. apply run_setitem_eq.
      apply run_setitem_eq. exact Hws.
Qed.

Lemma category_fill_frame (ns : list nat) (sorted : list pyval)
    (prefix : string) :
  fresh_names ->
  forall row k, is_Some (row !! k) ->
    category_fill ns sorted prefix row !! k = row !! k.
Proof.
  intros Hf. induction ns as [|n rest IH]; intros row k Hk;
    cbn [category_fill]; [reflexivity|].
  assert (H1' : generate_unique ("category_" ++ pretty n) (dom row) prefix
                <> k).
  { intros <-.
    apply (Hf ("category_" ++ pretty n) (dom row) prefix).
    now apply elem_of_dom. }
  assert (H2' : generate_unique ("category_" ++ pretty n ++ "_confidence")
                  (dom row) prefix <> k).
  { intros <-.
    apply (Hf ("category_" ++ pretty n ++ "_confidence") (dom row) prefix).
    now apply elem_of_dom. }
  rewrite IH.
  - now rewrite !lookup_insert_ne.
  - now rewrite !lookup_insert_ne.
Qed.

Lemma category_fill_lookup (ns : list nat) (sorted : list pyval)
    (prefix : string) :
  fresh_names ->
  forall row (i n : nat) c1 c2,
    Forall (fun p => p.1 <> p.2) (category_columns ns (dom row) prefix) ->
    ns !! i = Some n ->
    category_columns ns (dom row) prefix !! i = Some (c1, c2) ->
    category_fill ns sorted prefix row !! c1 = Some (slot_name sorted n)
    /\ category_fill ns sorted prefix row !! c2
       = Some (slot_confidence sorted n).
Proof.
  intros Hf. induction ns as [|n0 rest IH]; intros row i n c1 c2 Hd Hn Hc;
    [discriminate|].
  cbn [category_fill category_columns] in *.
  apply Forall_cons in Hd as [Hd0 Hd].
  destruct i as [|j]; cbn in Hn, Hc.
  - injection Hn as ->. injection Hc as <- <-. cbn [fst snd] in Hd0.
    rewrite !category_fill_frame; try assumption.
    + split; [|apply lookup_insert_eq].
      rewrite lookup_insert_ne by (apply not_eq_sym, Hd0).
      apply lookup_insert_eq.
    + rewrite lookup_insert_eq. eauto.
    + rewrite lookup_insert_ne by (apply not_eq_sym, Hd0).
      rewrite lookup_insert_eq. eauto.
  - apply (IH _ j); [|assumption|]; now rewrite !dom_insert_L.
Qed.

Lemma category_columns_spec (ns : list nat) (prefix : string) :
  fresh_names ->
  forall ks,
    length (category_columns ns ks prefix) = length ns
    /\ Forall (fun c => c ∉ ks) (pair_keys (category_columns ns ks prefix))
    /\ (Forall (fun p => p.1 <> p.2) (category_columns ns ks prefix) ->
        NoDup (pair_keys (category_columns ns ks prefix))).
Proof.
  intros Hf. induction ns as [|n rest IH]; intros ks;
    cbn [category_columns length].
  - repeat split; constructor.
  - set (c1 := generate_unique ("category_" ++ pretty n) ks prefix).
    set (c2 := generate_unique _ ks prefix).
    destruct (IH ({[c2]} ∪ ({[c1]} ∪ ks))) as (L & F & N).
    assert (F' : Forall (fun c' => c' <> c1 /\ c' <> c2 /\ c' ∉ ks)
                   (pair_keys (category_columns rest ({[c2]} ∪ ({[c1]} ∪ ks))
                                 prefix))).
    { eapply Forall_impl; [exact F|]. intros c' Hc'. set_solver. }
    unfold pair_keys in *. cbn [mbind list_bind fst snd app].
    repeat split.
    + now rewrite L.
    + constructor; [apply Hf|]. constructor; [apply Hf|].
      eapply Forall_impl; [exact F'|]. now intros c' (_ & _ & ?).
    + intros Hd. apply Forall_cons in Hd as [Hd0 Hd]. cbn [fst snd] in Hd0.
      rewrite Forall_forall in F'.
      constructor; [|constructor; [|now apply N]].
      * intros Hin. apply elem_of_cons in Hin as [E|Hin]; [exact (Hd0 E)|].
        now destruct (F' c1 Hin).
      * intros Hin. now destruct (F' c2 Hin) as (_ & ? & _).
Qed.

Lemma category_fill_dom (ns : list nat) (sorted : list pyval)
    (prefix : string) :
  forall row,
    dom (category_fill ns sorted prefix row)
    = dom row ∪ list_to_set (pair_keys (category_columns ns (dom row) prefix)).
Proof.
  induction ns as [|n rest IH]; intros row;
    cbn [category_fill category_columns].
  - unfold pair_keys. cbn. set_solver.
  - rewrite IH, !dom_insert_L. unfold pair_keys.
    cbn [mbind list_bind fst snd app list_to_set]. set_solver.
Qed.
End CategorySlots.

Section ClassificationClaims.
Context `{PyRuntime} `{GoogleSdk} `{PluginIo}.

Lemma format_text_classification_run (row : gmap string pyval)
    (response_column column_prefix : string) (num_categories : Z)
    (error_handling : ErrorHandlingEnum) (raw : pyval)
    (d : gmap string pyval) (categories : pyval) :
  row !! response_column = Some raw ->
  json_loads raw = Ok (PDict d) ->
  default (PList []) (d !! "categories") = categories ->
  format_text_classification response_column MULTIPLE_COLUMNS num_categories
    column_prefix error_handling row
  = (sorted <- lift (sorted_reverse (fun x => py_get x "confidence" PNone)
                       categories);;
     category_loop (seq 0 (Z.to_nat num_categories)) sorted column_prefix) row.
Proof.
  intros Hraw Hjson Hd. unfold format_text_classification.
  rewrite (run_getitem _ raw) by exact Hraw.
  rewrite (safe_json_loads_decoded _ _ _ Hjson), run_lift_ok.
  cbn [py_get]. rewrite Hd. now rewrite run_lift_ok.
Qed.

(** C3. When the response decodes to an object whose categories are a
    list of objects with numeric confidences, the formatter in
    MULTIPLE_COLUMNS format returns and has added [num_categories] pairs of
    columns (3 by default in the source), all distinct and new to the row.
    Pair [n] holds the name and the confidence of the [n]-th category of
    the list sorted by descending confidence, a stable sort: categories of
    equal confidence keep the order of the response; a pair beyond the end
    of the list holds the empty string and the null value.
    [generate_unique] is assumed to return names that are not among the
    existing ones, and two different names for the two columns of a pair. *)
Theorem format_text_classification_top_categories (row : gmap string pyval)
    (response_column column_prefix : string) (num_categories : Z)
    (error_handling : ErrorHandlingEnum) (raw : pyval)
    (d : gmap string pyval) (categories : list pyval) :
  let r := format_text_classification response_column MULTIPLE_COLUMNS
             num_categories column_prefix error_handling row in
  let cols := category_columns (seq 0 (Z.to_nat num_categories)) (dom row)
                column_prefix in
  fresh_names ->
  Forall (fun p => p.1 <> p.2) cols ->
  row !! response_column = Some raw ->
  json_loads raw = Ok (PDict d) ->
  d !! "categories" = Some (PList categories) ->
  Forall is_category categories ->
  exists sorted,
    Permutation sorted categories
    /\ StronglySorted conf_ge sorted
    /\ (forall q, List.filter (same_confidence q) sorted
                  = List.filter (same_confidence q) categories)
    /\ outcome r = Ok tt
    /\ length cols = Z.to_nat num_categories
    /\ NoDup (pair_keys cols)
    /\ Forall (fun c => row !! c = None) (pair_keys cols)
    /\ dom (final r) = dom row ∪ list_to_set (pair_keys cols)
    /\ (forall (n : nat) c1 c2,
          cols !! n = Some (c1, c2) ->
          final r !! c1 = Some (slot_name sorted n)
          /\ final r !! c2 = Some (slot_confidence sorted n))
    /\ (forall (n : nat) c,
          sorted !! n = Some c ->
          slot_name sorted n = dict_get c "name" (PStr "")
          /\ slot_confidence sorted n = dict_get c "confidence" PNone)
    /\ (forall n : nat,
          (length categories <= n)%nat ->
          slot_name sorted n = PStr "" /\ slot_confidence sorted n = PNone).
Proof.
  intros r cols Hf Hpairs Hraw Hjson Hd Hcats.
  destruct (sorted_reverse_categories categories Hcats)
    as (sorted & Hsort & Hperm & Hdesc & Hstable).
  exists sorted.
  assert (Hdicts : Forall is_dict sorted).
  { rewrite Forall_forall in *. intros c Hc.
    apply Hcats. now rewrite <- Hperm. }
  destruct (category_loop_run (seq 0 (Z.to_nat num_categories)) sorted
              column_prefix Hdicts row) as [ws Hws].
  assert (Hr : r = Run (category_fill (seq 0 (Z.to_nat num_categories))
                          sorted column_prefix row) ws (Ok tt)).
  { subst r.
    rewrite (format_text_classification_run _ _ _ _ _ raw d (PList categories)
               Hraw Hjson) by (now rewrite Hd).
    now rewrite Hsort, run_lift_ok. }
  destruct (category_columns_spec (seq 0 (Z.to_nat num_categories))
              column_prefix Hf (dom row)) as (L & F & N).
  rewrite length_seq in L.
  rewrite Hr. cbn [final outcome].
  repeat split; try assumption.
  - now apply N.
  - eapply Forall_impl; [exact F|]. intros c Hc. now apply not_elem_of_dom.
  - apply category_fill_dom.
  - eapply (category_fill_lookup _ _ _ Hf row n n); [exact Hpairs| |exact H2].
    apply lookup_seq. split; [reflexivity|].
    apply lookup_lt_Some in H2. fold cols in L. lia.
  - eapply (category_fill_lookup _ _ _ Hf row n n); [exact Hpairs| |exact H2].
    apply lookup_seq. split; [reflexivity|].
    apply lookup_lt_Some in H2. fold cols in L. lia.
  - unfold slot_name. now rewrite H2.
  - unfold slot_confidence. now rewrite H2.
  - unfold slot_name. rewrite lookup_ge_None_2; [reflexivity|].
    rewrite (Permutation_length Hperm). assumption.
  - unfold slot_confidence. rewrite lookup_ge_None_2; [reflexivity|].
    rewrite (Permutation_length Hperm). assumption.
Qed.
End ClassificationClaims.

(** ** A category without confidence *)

Section MissingConfidence.
Context `{PyRuntime} `{GoogleSdk} `{PluginIo}.

Lemma py_lt_none_l (v : pyval) : py_lt PNone v = Raise TypeError.
Proof. now destruct v. Qed.

Lemma py_lt_none_r (v : pyval) : py_lt v PNone = Raise TypeError.
Proof. now destruct v. Qed.

Lemma insert_desc_numbers (l : list pyval) (c : pyval) :
  is_Some (as_number (dict_get c "confidence" PNone)) ->
  Forall (fun y => is_Some (as_number (dict_get y "confidence" PNone))) l ->
  exists r,
    insert_desc (dict_get c "confidence" PNone) c (with_confidence <$> l)
    = Ok (with_confidence <$> r)
    /\ Permutation r (c :: l).
Proof.
  intros [x Hx] Hl. induction Hl as [|y rest [z Hz] Hrest IH].
  - now exists [c].
  - cbn [fmap list_fmap insert_desc with_confidence].
    rewrite (py_lt_number _ _ _ _ Hx Hz). cbn [rbind].
    destruct (xltb x z).
    + destruct IH as (r & Hr & Hp). fold (with_confidence <$> rest).
      rewrite Hr. cbn [rbind]. exists (y :: r). split; [reflexivity|].
      rewrite Hp. apply perm_swap.
    + now exists (c :: y :: rest).
Qed.

(** Sorting raises [TypeError] unless every key is a number or there is at
    most one item. *)
Lemma sort_desc_scored_or_missing (l : list pyval) :
  Forall scored_or_missing l ->
  sort_desc (with_confidence <$> l) = Raise TypeError
  \/ (exists s, sort_desc (with_confidence <$> l) = Ok (with_confidence <$> s)
                /\ Permutation s l
                /\ (Forall (fun y => is_Some (as_number
                                       (dict_get y "confidence" PNone))) l
                    \/ (length l <= 1)%nat)).
Proof.
  induction 1 as [|c rest [_ Hc] Hrest IH].
  - right. exists []. repeat split; auto.
  - cbn [fmap list_fmap sort_desc with_confidence].
    fold (with_confidence <$> rest).
    destruct IH as [->|(s & Hs & Hp & Hcase)]; [now left|].
    rewrite Hs. cbn [rbind].
    destruct s as [|y s'].
    { apply Permutation_nil in Hp. subst rest.
      right. exists [c]. repeat split; auto. }
    assert (Hy : scored_or_missing y).
    { rewrite Forall_forall in Hrest. apply Hrest. rewrite <- Hp.
      now left. }
    destruct Hc as [Hc|Hc].
    { left. cbn [fmap list_fmap insert_desc with_confidence].
      now rewrite Hc, py_lt_none_l. }
    assert (Hnum : Forall (fun y => is_Some (as_number
                             (dict_get y "confidence" PNone))) rest
                   \/ dict_get y "confidence" PNone = PNone).
    { destruct Hcase as [Hall|Hlen]; [now left|].
      destruct Hy as [_ [Hy|Hy]]; [now right|left].
      rewrite <- Hp in Hlen. cbn [length] in Hlen.
      destruct s'; [|cbn in Hlen; lia].
      apply Permutation_length_1_inv in Hp. subst rest.
      now repeat constructor. }
    destruct Hnum as [Hall|Hnone].
    + assert (Hall' : Forall (fun y => is_Some (as_number
                                 (dict_get y "confidence" PNone))) (y :: s')).
      { rewrite Forall_forall in *. intros z Hz. apply Hall.
        now rewrite <- Hp. }
      destruct (insert_desc_numbers (y :: s') c Hc Hall') as (r & Hr & Hp').
      right. exists r. split; [exact Hr|]. split.
      * rewrite Hp'. now constructor.
      * left. now constructor.
    + left. cbn [fmap list_fmap insert_desc with_confidence].
      now rewrite Hnone, py_lt_none_r.
Qed.

(** C9. When the response decodes to an object whose categories are a
    list of objects, each with a confidence that is a number or missing,
    one of them without confidence and another with a number, the formatter
    in MULTIPLE_COLUMNS format raises [TypeError] from the comparison of the
    sort keys, before it has written anything: no null value stands in for
    the missing confidence. *)
Theorem format_text_classification_missing_confidence
    (row : gmap string pyval) (response_column column_prefix : string)
    (num_categories : Z) (error_handling : ErrorHandlingEnum) (raw : pyval)
    (d : gmap string pyval) (categories : list pyval) (c c' : pyval) :
  row !! response_column = Some raw ->
  json_loads raw = Ok (PDict d) ->
  d !! "categories" = Some (PList categories) ->
  Forall scored_or_missing categories ->
  c ∈ categories -> dict_get c "confidence" PNone = PNone ->
  c' ∈ categories -> is_Some (as_number (dict_get c' "confidence" PNone)) ->
  format_text_classification response_column MULTIPLE_COLUMNS num_categories
    column_prefix error_handling row
  = Run row [] (Raise TypeError).
Proof.
  intros Hraw Hjson Hd Hcats Hc Hnone Hc' Hnum.
  rewrite (format_text_classification_run _ _ _ _ _ raw d (PList categories)
             Hraw Hjson) by (now rewrite Hd).
  assert (Hsort : sorted_reverse (fun x => py_get x "confidence" PNone)
                    (PList categories) = Raise TypeError).
  { unfold sorted_reverse. cbn [py_iter rbind].
    rewrite keyed_confidence
      by (eapply Forall_impl; [exact Hcats|]; now intros z [Hz _]).
    cbn [rbind].
    destruct (sort_desc_scored_or_missing categories Hcats)
      as [->|(s & _ & _ & [Hall|Hlen])]; [reflexivity| |].
    - exfalso. rewrite Forall_forall in Hall.
      destruct (Hall c Hc) as [x Hx]. rewrite Hnone in Hx. discriminate.
    - exfalso.
      assert (Hne : c <> c').
      { intros ->. destruct Hnum as [x Hx]. rewrite Hnone in Hx.
        discriminate. }
      destruct categories as [|a [|b l]]; cbn in Hlen; try lia.
      + now apply elem_of_nil in Hc.
      + apply list_elem_of_singleton in Hc, Hc'. congruence. }
  rewrite Hsort. apply run_lift_raise.
Qed.
End MissingConfidence.

(** ** A response that is not JSON, under the LOG policy *)

Section MalformedJson.
Context `{PyRuntime} `{GoogleSdk} `{PluginIo}.

Lemma safe_json_loads_log (raw : pyval) (e : exn) :
  json_loads raw = Raise e -> safe_json_loads raw LOG = Ok (PDict ∅).
Proof. intros He. unfold safe_json_loads. now rewrite He. Qed.

Lemma entity_type_fill_constant (types : list string) (v : pyval)
    (prefix : string) :
  forall row k,
    entity_type_fill types (fun _ => v) prefix row !! k = row !! k
    \/ entity_type_fill types (fun _ => v) prefix row !! k = Some v.
Proof.
  induction types as [|n rest IH]; intros row k; cbn [entity_type_fill];
    [now left|].
  destruct (IH (<[generate_unique ("entity_type_" ++ lower n) (dom row)
                    prefix := v]> row) k) as [E|E]; [|now right].
  rewrite E.
  destruct (decide (generate_unique ("entity_type_" ++ lower n) (dom row)
                      prefix = k)) as [->|Hne].
  - right. apply lookup_insert_eq.
  - left. now apply lookup_insert_ne.
Qed.

Lemma category_fill_empty (ns : list nat) (prefix : string) :
  forall row k,
    category_fill ns [] prefix row !! k = row !! k
    \/ category_fill ns [] prefix row !! k = Some (PStr "")
    \/ category_fill ns [] prefix row !! k = Some PNone.
Proof.
  induction ns as [|n rest IH]; intros row k; cbn [category_fill];
    [now left|].
  match goal with
  | |- context [category_fill rest [] prefix ?r] =>
      destruct (IH r k) as [E|E]; [|now right]
  end.
  rewrite E. unfold slot_name, slot_confidence. cbn.
  destruct (decide (generate_unique
                      ("category_" ++ pretty n ++ "_confidence") (dom row)
                      prefix = k)) as [->|Hne2].
  - right; right. apply lookup_insert_eq.
  - rewrite lookup_insert_ne by exact Hne2.
    destruct (decide (generate_unique ("category_" ++ pretty n) (dom row)
                        prefix = k)) as [->|Hne1].
    + right; left. apply lookup_insert_eq.
    + left. now apply lookup_insert_ne.
Qed.
End MalformedJson.

Section MalformedJsonClaim.
Context `{PyRuntime} `{GoogleSdk} `{PluginIo}.

Lemma format_named_entity_recognition_log (row : gmap string pyval)
    (response_column column_prefix : string)
    (output_format : OutputFormatEnum) (raw : pyval) (e : exn) :
  row !! response_column = Some raw ->
  json_loads raw = Raise e ->
  exists ws,
    format_named_entity_recognition response_column output_format
      column_prefix LOG row
    = Run (match output_format with
           | SINGLE_COLUMN =>
               <[generate_unique "entities" (dom row) column_prefix
                   := PStr ""]> row
           | MULTIPLE_COLUMNS =>
               entity_type_fill entity_type_members (fun _ => PStr "")
                 column_prefix row
           end) ws (Ok tt).
Proof.
  intros Hraw Hjson. unfold format_named_entity_recognition.
  rewrite (run_getitem _ raw) by exact Hraw.
  rewrite (safe_json_loads_log raw e Hjson), run_lift_ok.
  destruct output_format.
  - rewrite run_keys. cbn [py_get]. rewrite lookup_empty. cbn [default].
    rewrite run_lift_ok. eexists. reflexivity.
  - cbn [py_get]. rewrite lookup_empty. cbn [default].
    rewrite run_lift_ok.
    destruct (entity_type_loop_run entity_type_members [] column_prefix
                (List.Forall_nil _) row) as [ws Hws].
    exists ws. exact Hws.
Qed.

Lemma format_text_classification_log (row : gmap string pyval)
    (response_column column_prefix : string)
    (output_format : OutputFormatEnum) (num_categories : Z) (raw : pyval)
    (e : exn) :
  row !! response_column = Some raw ->
  json_loads raw = Raise e ->
  exists ws,
    format_text_classification response_column output_format num_categories
      column_prefix LOG row
    = Run (match output_format with
           | SINGLE_COLUMN =>
               <[generate_unique "categories" (dom row) column_prefix
                   := PStr ""]> row
           | MULTIPLE_COLUMNS =>
               category_fill (seq 0 (Z.to_nat num_categories)) []
                 column_prefix row
           end) ws (Ok tt).
Proof.
  intros Hraw Hjson. unfold format_text_classification.
  rewrite (run_getitem _ raw) by exact Hraw.
  rewrite (safe_json_loads_log raw e Hjson), run_lift_ok.
  destruct output_format.
  - rewrite run_keys. cbn [py_get]. rewrite lookup_empty. cbn [default].
    rewrite run_lift_ok. eexists. reflexivity.
  - cbn [py_get]. rewrite lookup_empty. cbn [default].
    rewrite run_lift_ok.
    change (sorted_reverse (fun x => py_get x "confidence" PNone)
              (PList [])) with (@Ok (list pyval) []).
    rewrite run_lift_ok.
    apply (category_loop_run _ [] column_prefix (List.Forall_nil _) row).
Qed.

Lemma format_sentiment_analysis_log (row : gmap string pyval)
    (response_column sentiment_scale column_prefix : string) (raw : pyval)
    (e : exn) :
  row !! response_column = Some raw ->
  json_loads raw = Raise e ->
  format_sentiment_analysis response_column sentiment_scale column_prefix
    LOG row
  = Run (<[generate_unique "magnitude" (dom row) column_prefix := PNone]>
           (<[generate_unique "score_scaled" (dom row) column_prefix
                := PNone]>
              (<[generate_unique "score" (dom row) column_prefix := PNone]>
                 row)))
        [generate_unique "score" (dom row) column_prefix;
         generate_unique "score_scaled" (dom row) column_prefix;
         generate_unique "magnitude" (dom row) column_prefix]
        (Ok tt).
Proof.
  intros Hraw Hjson.
  rewrite (format_sentiment_analysis_run _ _ _ _ _ raw (PDict ∅) (PDict ∅)
             PNone PNone Hraw (safe_json_loads_log raw e Hjson)
             eq_refl eq_refl eq_refl).
  reflexivity.
Qed.
End MalformedJsonClaim.

Section MalformedJsonTheorem.
Context `{PyRuntime} `{GoogleSdk} `{PluginIo}.

(** C5. When [json.loads] rejects the response and the policy is LOG, each
    of the three formatters returns without raising, and the row it leaves
    is the row it was given with sentinels in the columns it adds: the
    empty string in every entity-type column (and in the single column of
    SINGLE_COLUMN format), the null value in the score, scaled-score and
    magnitude columns, the empty string and the null value in the name and
    confidence columns of every category slot. *)
Theorem malformed_json_under_log (row : gmap string pyval)
    (response_column sentiment_scale column_prefix : string)
    (output_format : OutputFormatEnum) (num_categories : Z) (raw : pyval)
    (e : exn) :
  row !! response_column = Some raw ->
  json_loads raw = Raise e ->
  let ner := format_named_entity_recognition response_column output_format
               column_prefix LOG row in
  let sentiment := format_sentiment_analysis response_column sentiment_scale
                     column_prefix LOG row in
  let classification :=
    format_text_classification response_column output_format num_categories
      column_prefix LOG row in
  (outcome ner = Ok tt
   /\ final ner
      = match output_format with
        | SINGLE_COLUMN =>
            <[generate_unique "entities" (dom row) column_prefix := PStr ""]>
              row
        | MULTIPLE_COLUMNS =>
            entity_type_fill entity_type_members (fun _ => PStr "")
              column_prefix row
        end
   /\ forall k, final ner !! k = row !! k \/ final ner !! k = Some (PStr ""))
  /\ (outcome sentiment = Ok tt
      /\ final sentiment
         = <[generate_unique "magnitude" (dom row) column_prefix := PNone]>
             (<[generate_unique "score_scaled" (dom row) column_prefix
                  := PNone]>
                (<[generate_unique "score" (dom row) column_prefix := PNone]>
                   row))
      /\ forall k, final sentiment !! k = row !! k
                   \/ final sentiment !! k = Some PNone)
  /\ (outcome classification = Ok tt
      /\ final classification
         = match output_format with
           | SINGLE_COLUMN =>
               <[generate_unique "categories" (dom row) column_prefix
                   := PStr ""]> row
           | MULTIPLE_COLUMNS =>
               category_fill (seq 0 (Z.to_nat num_categories)) []
                 column_prefix row
           end
      /\ forall k, final classification !! k = row !! k
                   \/ final classification !! k = Some (PStr "")
                   \/ final classification !! k = Some PNone).
Proof.
  intros Hraw Hjson ner sentiment classification.
  destruct (format_named_entity_recognition_log row response_column
              column_prefix output_format raw e Hraw Hjson) as [ws1 Hner].
  pose proof (format_sentiment_analysis_log row response_column
                sentiment_scale column_prefix raw e Hraw Hjson) as Hsent.
  destruct (format_text_classification_log row response_column
              column_prefix output_format num_categories raw e Hraw Hjson)
    as [ws3 Hcls].
  subst ner sentiment classification. rewrite Hner, Hsent, Hcls.
  cbn [final outcome].
  split; [|split]; (split; [reflexivity|]); (split; [reflexivity|]).
  - intros k. destruct output_format.
    + destruct (decide (generate_unique "entities" (dom row) column_prefix
                        = k)) as [->|Hne].
      * right. apply lookup_insert_eq.
      * left. now apply lookup_insert_ne.
    + apply entity_type_fill_constant.
  - intros k.
    destruct (decide (generate_unique "magnitude" (dom row) column_prefix
                      = k)) as [->|Hne3];
      [right; apply lookup_insert_eq|].
    rewrite lookup_insert_ne by exact Hne3.
    destruct (decide (generate_unique "score_scaled" (dom row) column_prefix
                      = k)) as [->|Hne2];
      [right; apply lookup_insert_eq|].
    rewrite lookup_insert_ne by exact Hne2.
    destruct (decide (generate_unique "score" (dom row) column_prefix
                      = k)) as [->|Hne1];
      [right; apply lookup_insert_eq|].
    left. now apply lookup_insert_ne.
  - intros k. destruct output_format.
    + destruct (decide (generate_unique "categories" (dom row) column_prefix
                        = k)) as [->|Hne].
      * right; left. apply lookup_insert_eq.
      * left. now apply lookup_insert_ne.
    + apply category_fill_empty.
Qed.
End MalformedJsonTheorem.

(** ** The sample environment meets the hypotheses *)

Lemma sample_fresh_names : @fresh_names Sample.plugin_io.
Proof. intros name ks prefix. apply fresh_string_of_set_fresh. Qed.

Lemma format_named_entity_recognition_columns_witness :
  let r := @format_named_entity_recognition Sample.runtime Sample.sdk
             Sample.plugin_io "response" MULTIPLE_COLUMNS "ner_api" LOG
             (Sample.row "entities") in
  outcome r = Ok tt
  /\ final r !! "ner_api_entity_type_person" = Some (PList [PStr "A"])
  /\ final r !! "ner_api_entity_type_date" = Some (PStr "").
Proof.
  cbv zeta.
  assert (Hd : Forall is_dict [Sample.entity])
    by (repeat constructor; eexists; reflexivity).
  destruct (@format_named_entity_recognition_columns Sample.runtime
              Sample.sdk Sample.plugin_io (Sample.row "entities") "response"
              "ner_api" LOG (PStr "entities")
              {["entities" := PList [Sample.entity]]} [Sample.entity]
              sample_fresh_names eq_refl eq_refl eq_refl Hd)
    as (W1 & _ & _ & _ & _ & _ & W7).
  split; [exact W1|]. split.
  - apply (W7 eq_refl 1%nat "PERSON" "ner_api_entity_type_person");
      vm_compute; reflexivity.
  - apply (W7 eq_refl 10%nat "DATE" "ner_api_entity_type_date");
      vm_compute; reflexivity.
Defined.

Lemma format_text_classification_top_categories_witness :
  let r := @format_text_classification Sample.runtime Sample.plugin_io
             "response" MULTIPLE_COLUMNS 3 "classification_api" LOG
             (Sample.row "categories") in
  outcome r = Ok tt
  /\ final r !! "classification_api_category_2" = Some (PStr "")
  /\ final r !! "classification_api_category_2_confidence" = Some PNone.
Proof.
  cbv zeta.
  assert (Hc : Forall is_category
                 [Sample.category "/Arts" (PFloat f64_0_33);
                  Sample.category "/News" (PFloat f64_0_66)]).
  { repeat constructor; try (eexists; reflexivity);
      vm_compute; discriminate. }
  assert (Hp : Forall (fun p : string * string => p.1 <> p.2)
                 (@category_columns Sample.plugin_io
                    (seq 0 (Z.to_nat 3)) (dom (Sample.row "categories"))
                    "classification_api")).
  { vm_compute. repeat constructor; discriminate. }
  destruct (@format_text_classification_top_categories Sample.runtime
              Sample.plugin_io (Sample.row "categories") "response"
              "classification_api" 3 LOG (PStr "categories")
              {["categories" :=
                  PList [Sample.category "/Arts" (PFloat f64_0_33);
                         Sample.category "/News" (PFloat f64_0_66)]]}
              [Sample.category "/Arts" (PFloat f64_0_33);
               Sample.category "/News" (PFloat f64_0_66)]
              sample_fresh_names Hp eq_refl eq_refl eq_refl Hc)
    as (sorted & _ & _ & _ & W1 & _ & _ & _ & _ & W2 & _ & W3).
  split; [exact W1|].
  destruct (W2 2%nat "classification_api_category_2"
              "classification_api_category_2_confidence")
    as [W4 W5]; [vm_compute; reflexivity|].
  destruct (W3 2%nat) as [W6 W7]; [cbn; lia|].
  rewrite W6 in W4. rewrite W7 in W5. now split.
Defined.

Lemma format_text_classification_missing_confidence_witness :
  @format_text_classification Sample.runtime Sample.plugin_io "response"
    MULTIPLE_COLUMNS 3 "classification_api" LOG (Sample.row "unscored")
  = Run (Sample.row "unscored") [] (Raise TypeError).
Proof.
  assert (Hs : Forall scored_or_missing
                 [PDict {["name" := PStr "/Arts"]};
                  Sample.category "/News" (PFloat f64_0_66)]).
  { constructor; [split; [eexists; reflexivity|left; reflexivity]|].
    constructor; [|constructor].
    split; [eexists; reflexivity|right; eexists; reflexivity]. }
  apply (@format_text_classification_missing_confidence Sample.runtime
           Sample.plugin_io (Sample.row "unscored") "response"
           "classification_api" 3 LOG (PStr "unscored")
           {["categories" :=
               PList [PDict {["name" := PStr "/Arts"]};
                      Sample.category "/News" (PFloat f64_0_66)]]}
           [PDict {["name" := PStr "/Arts"]};
            Sample.category "/News" (PFloat f64_0_66)]
           (PDict {["name" := PStr "/Arts"]})
           (Sample.category "/News" (PFloat f64_0_66))
           eq_refl eq_refl eq_refl Hs).
  - apply list_elem_of_here.
  - reflexivity.
  - apply list_elem_of_further, list_elem_of_here.
  - eexists. reflexivity.
Defined.

Lemma malformed_json_under_log_witness :
  let row := Sample.row "{" in
  outcome (@format_named_entity_recognition Sample.runtime Sample.sdk
             Sample.plugin_io "response" MULTIPLE_COLUMNS "ner_api" LOG row)
  = Ok tt
  /\ outcome (@format_sentiment_analysis Sample.runtime Sample.plugin_io
                "response" "ternary" "sentiment_api" LOG row) = Ok tt
  /\ outcome (@format_text_classification Sample.runtime Sample.plugin_io
                "response" MULTIPLE_COLUMNS 3 "classification_api" LOG row)
     = Ok tt.
Proof.
  cbv zeta.
  pose proof (@malformed_json_under_log Sample.runtime Sample.sdk
                Sample.plugin_io (Sample.row "{") "response" "ternary"
                "ner_api" MULTIPLE_COLUMNS 3 (PStr "{")
                (ValueError "Expecting value") eq_refl eq_refl) as W.
  cbv zeta in W. destruct W as ((W1 & _) & _ & _).
  split; [exact W1|].
  pose proof (@malformed_json_under_log Sample.runtime Sample.sdk
                Sample.plugin_io (Sample.row "{") "response" "ternary"
                "sentiment_api" MULTIPLE_COLUMNS 3 (PStr "{")
                (ValueError "Expecting value") eq_refl eq_refl) as W.
  cbv zeta in W. destruct W as (_ & (W2 & _) & _).
  split; [exact W2|].
  pose proof (@malformed_json_under_log Sample.runtime Sample.sdk
                Sample.plugin_io (Sample.row "{") "response" "ternary"
                "classification_api" MULTIPLE_COLUMNS 3 (PStr "{")
                (ValueError "Expecting value") eq_refl eq_refl) as W.
  cbv zeta in W. destruct W as (_ & _ & (W3 & _)).
  exact W3.
Defined.

Lemma formatters_only_add_keys_witness :
  final (@format_named_entity_recognition Sample.runtime Sample.sdk
           Sample.plugin_io "response" MULTIPLE_COLUMNS "ner_api" LOG
           (Sample.row "entities")) !! "text"
  = Some (PStr "some text").
Proof.
  pose proof (@formatters_only_add_keys Sample.runtime Sample.sdk
                Sample.plugin_io (Sample.row "entities") "response"
                "ternary" "ner_api" MULTIPLE_COLUMNS 3 LOG
                sample_fresh_names) as W.
  cbv zeta in W. destruct W as ((W1 & _) & _).
  apply W1. reflexivity.
Defined.

(** * Further properties of the module *)

(** ** Calls that fail before the first write *)

Section EarlyFailures.
Context `{PyRuntime} `{GoogleSdk} `{PluginIo}.

(** X1. A row without the response column makes each formatter raise
    [KeyError]; the row is left as it was and nothing is written. *)
Theorem missing_response_column (row : gmap string pyval)
    (response_column sentiment_scale column_prefix : string)
    (output_format : OutputFormatEnum) (num_categories : Z)
    (error_handling : ErrorHandlingEnum) :
  row !! response_column = None ->
  format_named_entity_recognition response_column output_format
    column_prefix error_handling row = Run row [] (Raise KeyError)
  /\ format_sentiment_analysis response_column sentiment_scale column_prefix
       error_handling row = Run row [] (Raise KeyError)
  /\ format_text_classification response_column output_format num_categories
       column_prefix error_handling row = Run row [] (Raise KeyError).
Proof.
  intros Hrow.
  unfold format_named_entity_recognition, format_sentiment_analysis,
    format_text_classification.
  now rewrite !run_getitem_missing by exact Hrow.
Qed.

Lemma py_get_not_dict (v : pyval) (k : string) (dflt : pyval) :
  ~ is_dict v -> py_get v k dflt = Raise AttributeError.
Proof.
  intros Hv. destruct v; try reflexivity. elim Hv. now eexists.
Qed.

(** X2. A response that decodes to JSON other than an object (a list, a
    number, a string, null) makes each formatter raise [AttributeError] on
    its first [get]; the row is left as it was and nothing is written. *)
Theorem response_not_an_object (row : gmap string pyval)
    (response_column sentiment_scale column_prefix : string)
    (output_format : OutputFormatEnum) (num_categories : Z)
    (error_handling : ErrorHandlingEnum) (raw response : pyval) :
  row !! response_column = Some raw ->
  json_loads raw = Ok response ->
  ~ is_dict response ->
  format_named_entity_recognition response_column output_format
    column_prefix error_handling row = Run row [] (Raise AttributeError)
  /\ format_sentiment_analysis response_column sentiment_scale column_prefix
       error_handling row = Run row [] (Raise AttributeError)
  /\ format_text_classification response_column output_format num_categories
       column_prefix error_handling row = Run row [] (Raise AttributeError).
Proof.
  intros Hrow Hjson Hresp.
  unfold format_named_entity_recognition, format_sentiment_analysis,
    format_text_classification.
  rewrite !(run_getitem _ raw) by exact Hrow.
  rewrite !(safe_json_loads_decoded _ _ _ Hjson), !run_lift_ok.
  rewrite !run_keys.
  destruct output_format; rewrite ?run_keys;
    rewrite !(py_get_not_dict response) by exact Hresp;
    now rewrite !run_lift_raise.
Qed.
End EarlyFailures.

Lemma missing_response_column_witness :
  @format_sentiment_analysis Sample.runtime Sample.plugin_io "no such column"
    "ternary" "sentiment_api" LOG (Sample.row "sentiment")
  = Run (Sample.row "sentiment") [] (Raise KeyError).
Proof.
  exact (proj1 (proj2
    (@missing_response_column Sample.runtime Sample.sdk Sample.plugin_io
       (Sample.row "sentiment") "no such column" "ternary" "sentiment_api"
       MULTIPLE_COLUMNS 3 LOG eq_refl))).
Defined.

Lemma response_not_an_object_witness :
  @format_text_classification Shapes.runtime Sample.plugin_io "response"
    MULTIPLE_COLUMNS 3 "classification_api" FAIL (Sample.row "a list")
  = Run (Sample.row "a list") [] (Raise AttributeError).
Proof.
  refine (proj2 (proj2
    (@response_not_an_object Shapes.runtime Sample.sdk Sample.plugin_io
       (Sample.row "a list") "response" "ternary" "classification_api"
       MULTIPLE_COLUMNS 3 FAIL (PStr "a list") (PList []) eq_refl eq_refl _))).
  intros [d Hd]. discriminate Hd.
Defined.

(** ** Scores that are not numbers, and the order of the labels *)

Section ScaleOrder.
Context `{PyRuntime}.

(** X3. A score that is null, a list or an object is rejected with
    [TypeError] in every mode: by the first comparison of the three label
    modes, by the addition of rescale_zero_to_one and by the conversion to
    float of any other mode. *)
Theorem scale_sentiment_score_rejects_non_numbers (score : pyval)
    (scale : string) :
  score = PNone \/ (exists l, score = PList l) \/ is_dict score ->
  scale_sentiment_score score scale = Raise TypeError.
Proof.
  intros [-> | [[l ->] | [d Hd]]]; [| | destruct score; try discriminate Hd];
    unfold scale_sentiment_score;
    repeat (destruct (String.eqb scale _)); reflexivity.
Qed.

Lemma xltb_not_nan (x t : xnum) : xltb x t = true -> x <> XNaN /\ t <> XNaN.
Proof.
  unfold xltb, xcompare. destruct x, t; try discriminate; split; discriminate.
Qed.

Lemma xltb_le_trans (x y t : xnum) :
  xleb x y = true -> xltb y t = true -> xltb x t = true.
Proof.
  intros Hxy Hyt.
  destruct (xltb_not_nan _ _ Hyt) as [Hy Ht].
  destruct (xleb_not_nan _ _ Hxy) as [Hx _].
  rewrite (xltb_negb_xleb x t) by assumption.
  rewrite (xltb_negb_xleb y t) in Hyt by assumption.
  destruct (xleb t x) eqn:Htx; [| reflexivity].
  now rewrite (xleb_trans _ _ _ Htx Hxy) in Hyt.
Qed.

Lemma xltb_lt_le_trans (t x y : xnum) :
  xltb t x = true -> xleb x y = true -> xltb t y = true.
Proof.
  intros Htx Hxy.
  destruct (xltb_not_nan _ _ Htx) as [Ht Hx].
  destruct (xleb_not_nan _ _ Hxy) as [_ Hy].
  rewrite (xltb_negb_xleb t y) by assumption.
  rewrite (xltb_negb_xleb t x) in Htx by assumption.
  destruct (xleb y t) eqn:Hyt; [| reflexivity].
  now rewrite (xleb_trans _ _ _ Hxy Hyt) in Htx.
Qed.

Lemma scale_binary_number (score : pyval) (x : xnum) :
  as_number score = Some x ->
  scale_sentiment_score score "binary"
  = Ok (PStr (if xltb x (XFin 0 0) then "negative" else "positive")).
Proof.
  intros Hx. unfold scale_sentiment_score. simpl (String.eqb _ _). cbv iota.
  now rewrite (py_lt_number score (PInt 0) x (XFin 0 0) Hx eq_refl).
Qed.

Lemma scale_ternary_number (score : pyval) (x : xnum) :
  as_number score = Some x ->
  scale_sentiment_score score "ternary"
  = Ok (PStr (if xltb x (xnum_of_float (SFopp f64_0_33)) then "negative"
              else if xltb (xnum_of_float f64_0_33) x then "positive"
              else "neutral")).
Proof.
  intros Hx. unfold scale_sentiment_score, py_gt.
  simpl (String.eqb _ _). cbv iota.
  rewrite (py_lt_number score (PFloat (SFopp f64_0_33)) x _ Hx eq_refl).
  rewrite (py_lt_number (PFloat f64_0_33) score _ x eq_refl Hx).
  cbn [rbind].
  destruct (xltb x _); [reflexivity |].
  now destruct (xltb _ x).
Qed.

Lemma scale_quinary_number (score : pyval) (x : xnum) :
  as_number score = Some x ->
  scale_sentiment_score score "quinary"
  = Ok (PStr (if xltb x (xnum_of_float (SFopp f64_0_66))
              then "highly negative"
              else if xltb x (xnum_of_float (SFopp f64_0_33))
              then "negative"
              else if xltb x (xnum_of_float f64_0_33) then "neutral"
              else if xltb x (xnum_of_float f64_0_66) then "positive"
              else "highly positive")).
Proof.
  intros Hx. unfold scale_sentiment_score.
  simpl (String.eqb _ _). cbv iota.
  rewrite (py_lt_number score (PFloat (SFopp f64_0_66)) x _ Hx eq_refl).
  rewrite (py_lt_number score (PFloat (SFopp f64_0_33)) x _ Hx eq_refl).
  rewrite (py_lt_number score (PFloat f64_0_33) x _ Hx eq_refl).
  rewrite (py_lt_number score (PFloat f64_0_66) x _ Hx eq_refl).
  cbn [rbind].
  repeat (destruct (xltb x _); [reflexivity |]). reflexivity.
Qed.
End ScaleOrder.

Lemma scale_sentiment_score_rejects_non_numbers_witness :
  @scale_sentiment_score Sample.runtime PNone "quinary" = Raise TypeError.
Proof.
  exact (@scale_sentiment_score_rejects_non_numbers Sample.runtime PNone
           "quinary" (or_introl eq_refl)).
Defined.

Section ScaleLabels.
Context `{PyRuntime}.

(** X4. The labels follow the order of the scores: in each of the three
    label modes, when one numeric score is at most another, its label is
    not to the positive side of the other's (highly negative < negative <
    neutral < positive < highly positive). *)
Theorem scale_sentiment_score_monotone (a b : pyval) (x y : xnum)
    (scale : string) :
  as_number a = Some x -> as_number b = Some y ->
  xleb x y = true ->
  scale = "binary" \/ scale = "ternary" \/ scale = "quinary" ->
  exists la lb,
    scale_sentiment_score a scale = Ok la
    /\ scale_sentiment_score b scale = Ok lb
    /\ (label_rank la <= label_rank lb)%nat.
Proof.
  intros Ha Hb Hxy Hscale.
  pose proof (fun t => xltb_le_trans x y t Hxy) as Hdown.
  pose proof (fun t (Ht : xltb t x = true) => xltb_lt_le_trans t x y Ht Hxy)
    as Hup.
  destruct Hscale as [-> | [-> | ->]].
  - rewrite (scale_binary_number a x Ha), (scale_binary_number b y Hb).
    do 2 eexists. split; [reflexivity | split; [reflexivity |]].
    specialize (Hdown (XFin 0 0)).
    destruct (xltb y (XFin 0 0)).
    + rewrite (Hdown eq_refl). cbn. lia.
    + destruct (xltb x (XFin 0 0)); cbn; lia.
  - rewrite (scale_ternary_number a x Ha), (scale_ternary_number b y Hb).
    do 2 eexists. split; [reflexivity | split; [reflexivity |]].
    pose proof (Hdown (xnum_of_float (SFopp f64_0_33))) as H1.
    pose proof (Hup (xnum_of_float f64_0_33)) as H2.
    destruct (xltb y (xnum_of_float (SFopp f64_0_33))).
    + rewrite (H1 eq_refl). cbn. lia.
    + destruct (xltb (xnum_of_float f64_0_33) x).
      * rewrite (H2 eq_refl).
        destruct (xltb x (xnum_of_float (SFopp f64_0_33))); cbn; lia.
      * destruct (xltb x (xnum_of_float (SFopp f64_0_33))),
          (xltb (xnum_of_float f64_0_33) y); cbn; lia.
  - rewrite (scale_quinary_number a x Ha), (scale_quinary_number b y Hb).
    do 2 eexists. split; [reflexivity | split; [reflexivity |]].
    pose proof (Hdown (xnum_of_float (SFopp f64_0_66))) as H1.
    pose proof (Hdown (xnum_of_float (SFopp f64_0_33))) as H2.
    pose proof (Hdown (xnum_of_float f64_0_33)) as H3.
    pose proof (Hdown (xnum_of_float f64_0_66)) as H4.
    destruct (xltb y (xnum_of_float (SFopp f64_0_66)));
      [rewrite (H1 eq_refl); cbn; lia |].
    destruct (xltb y (xnum_of_float (SFopp f64_0_33)));
      [rewrite (H2 eq_refl);
       destruct (xltb x (xnum_of_float (SFopp f64_0_66))); cbn; lia |].
    destruct (xltb y (xnum_of_float f64_0_33));
      [rewrite (H3 eq_refl);
       destruct (xltb x (xnum_of_float (SFopp f64_0_66))),
         (xltb x (xnum_of_float (SFopp f64_0_33))); cbn; lia |].
    destruct (xltb y (xnum_of_float f64_0_66));
      [rewrite (H4 eq_refl);
       destruct (xltb x (xnum_of_float (SFopp f64_0_66))),
         (xltb x (xnum_of_float (SFopp f64_0_33))),
         (xltb x (xnum_of_float f64_0_33)); cbn; lia |].
    destruct (xltb x (xnum_of_float (SFopp f64_0_66))),
      (xltb x (xnum_of_float (SFopp f64_0_33))),
      (xltb x (xnum_of_float f64_0_33)),
      (xltb x (xnum_of_float f64_0_66)); cbn; lia.
Qed.

(** X5. The ternary and the quinary labels of one numeric score agree on
    the side: ternary says negative exactly when quinary says highly
    negative or negative, and whenever ternary says positive quinary says
    positive or highly positive. *)
Theorem ternary_and_quinary_agree (score : pyval) (x : xnum) :
  as_number score = Some x ->
  exists t q,
    scale_sentiment_score score "ternary" = Ok (PStr t)
    /\ scale_sentiment_score score "quinary" = Ok (PStr q)
    /\ (t = "negative" <-> q = "highly negative" \/ q = "negative")
    /\ (t = "positive" -> q = "positive" \/ q = "highly positive").
Proof.
  intros Hx.
  rewrite (scale_ternary_number score x Hx), (scale_quinary_number score x Hx).
  do 2 eexists. split; [reflexivity | split; [reflexivity |]].
  destruct (xnum_of_float f64_0_33) as [| |m33 e33] eqn:E33;
    try discriminate E33.
  assert (H33 : xltb (xnum_of_float (SFopp f64_0_66))
                  (xnum_of_float (SFopp f64_0_33)) = true)
    by (vm_compute; reflexivity).
  pose proof (fun Hlt : xltb x (xnum_of_float (SFopp f64_0_66)) = true =>
    xltb_le_trans x (xnum_of_float (SFopp f64_0_66))
      (xnum_of_float (SFopp f64_0_33))) as Hlow.
  destruct (xltb x (xnum_of_float (SFopp f64_0_66))) eqn:E1.
  - assert (Hle : xleb x (xnum_of_float (SFopp f64_0_66)) = true).
    { unfold xleb. unfold xltb in E1.
      destruct (xcompare x _) as [[ | | ]|]; try discriminate E1.
      reflexivity. }
    rewrite (Hlow eq_refl Hle H33).
    split; [split; [now left | reflexivity] | discriminate].
  - destruct (xltb x (xnum_of_float (SFopp f64_0_33))) eqn:E2.
    + split; [split; [now right | reflexivity] | discriminate].
    + rewrite <- E33.
      destruct (xltb (xnum_of_float f64_0_33) x) eqn:E3.
      * assert (E4 : xltb x (xnum_of_float f64_0_33) = false).
        { unfold xltb in *.
          destruct (xltb_not_nan _ _ E3) as [Ht Hxn].
          pose proof (xcompare_antisym (xnum_of_float f64_0_33) x) as Hanti.
          destruct (xcompare (xnum_of_float f64_0_33) x) as [[ | | ]|];
            try discriminate E3.
          rewrite Hanti. reflexivity. }
        rewrite E4.
        split; [split; [discriminate | intros [Hq | Hq];
          destruct (xltb x (xnum_of_float f64_0_66)); discriminate Hq] |].
        intros _. destruct (xltb x (xnum_of_float f64_0_66));
          [now left | now right].
      * split; [split; [discriminate |] | discriminate].
        intros [Hq | Hq];
          destruct (xltb x (xnum_of_float f64_0_33)),
            (xltb x (xnum_of_float f64_0_66)); discriminate Hq.
Qed.
End ScaleLabels.

Lemma scale_sentiment_score_monotone_witness :
  exists la lb,
    @scale_sentiment_score Sample.runtime (PFloat (SFopp f64_0_33)) "ternary"
    = Ok la
    /\ @scale_sentiment_score Sample.runtime (PFloat f64_0_34) "ternary"
       = Ok lb
    /\ (label_rank la <= label_rank lb)%nat.
Proof.
  exact (@scale_sentiment_score_monotone Sample.runtime
           (PFloat (SFopp f64_0_33)) (PFloat f64_0_34) _ _ "ternary"
           eq_refl eq_refl eq_refl (or_intror (or_introl eq_refl))).
Defined.

Lemma ternary_and_quinary_agree_witness :
  exists t q,
    @scale_sentiment_score Sample.runtime (PFloat f64_0_34) "ternary"
    = Ok (PStr t)
    /\ @scale_sentiment_score Sample.runtime (PFloat f64_0_34) "quinary"
       = Ok (PStr q)
    /\ (t = "negative" <-> q = "highly negative" \/ q = "negative")
    /\ (t = "positive" -> q = "positive" \/ q = "highly positive").
Proof.
  exact (@ternary_and_quinary_agree Sample.runtime (PFloat f64_0_34) _
           eq_refl).
Defined.

(** ** All or nothing *)

Section AllOrNothing.
Context `{PyRuntime} `{GoogleSdk} `{PluginIo}.

Lemma entity_names_dicts_or_raise (entities : list pyval) :
  Forall is_dict entities
  \/ forall n, entity_names entities n = Raise AttributeError.
Proof.
  induction entities as [|e rest IH]; [left; constructor|].
  destruct e as [| | | | | |d];
    try (right; intros n; reflexivity).
  destruct IH as [IH | IH].
  - left. constructor; [now eexists | exact IH].
  - right. intros n. cbn [entity_names py_get rbind].
    destruct (py_eq_str _ n); now rewrite IH.
Qed.

Lemma entity_type_loop_ok (types : list string) (entities : pyval)
    (es : list pyval) (prefix : string) :
  py_iter entities = Ok es ->
  Forall is_dict es ->
  forall row, outcome (entity_type_loop types entities prefix row) = Ok tt.
Proof.
  intros Hit Hes. induction types as [|n rest IH]; intros row;
    cbn [entity_type_loop]; [reflexivity|].
  rewrite run_keys, Hit. cbn [rbind].
  rewrite (entity_names_dicts _ _ Hes), run_lift_ok.
  set (c := generate_unique _ (dom row) prefix).
  rewrite run_setitem.
  rewrite (run_getitem c (PList (names_of_type es n)))
    by apply lookup_insert_eq.
  cbn [py_len]. rewrite run_lift_ok.
  destruct (Nat.eqb _ 0).
  - rewrite run_setitem. cbn [outcome]. apply IH.
  - rewrite run_ret. cbn [outcome]. apply IH.
Qed.

Lemma entity_type_loop_all_or_nothing (types : list string)
    (entities : pyval) (prefix : string) (row : gmap string pyval) :
  outcome (entity_type_loop types entities prefix row) = Ok tt
  \/ exists e,
       entity_type_loop types entities prefix row = Run row [] (Raise e).
Proof.
  destruct types as [|n rest]; [now left|].
  destruct (py_iter entities) as [es|e] eqn:Hit.
  - destruct (entity_names_dicts_or_raise es) as [Hes | Hes].
    + left. now apply (entity_type_loop_ok _ _ es).
    + right. exists AttributeError. cbn [entity_type_loop].
      rewrite run_keys, Hit. cbn [rbind]. now rewrite Hes, run_lift_raise.
  - right. exists e. cbn [entity_type_loop].
    rewrite run_keys, Hit. cbn [rbind]. now rewrite run_lift_raise.
Qed.

(** X6. The entity formatter is all or nothing: whatever the row, the
    response and the arguments, the call either returns or raises with the
    row exactly as it was and no column written. The comprehension fails
    for one entity type exactly when it fails for every type, so a failure
    comes in the first round of the loop, before the first assignment. *)
Theorem format_named_entity_recognition_all_or_nothing
    (row : gmap string pyval) (response_column column_prefix : string)
    (output_format : OutputFormatEnum) (error_handling : ErrorHandlingEnum) :
  outcome (format_named_entity_recognition response_column output_format
             column_prefix error_handling row) = Ok tt
  \/ exists e,
       format_named_entity_recognition response_column output_format
         column_prefix error_handling row = Run row [] (Raise e).
Proof.
  unfold format_named_entity_recognition.
  destruct (row !! response_column) as [raw|] eqn:Hraw;
    [| right; exists KeyError; now rewrite run_getitem_missing].
  rewrite (run_getitem _ raw) by exact Hraw.
  destruct (safe_json_loads raw error_handling) as [response|e];
    [| right; exists e; now rewrite run_lift_raise].
  rewrite run_lift_ok.
  destruct output_format.
  - rewrite run_keys.
    destruct (py_get response "entities" (PStr "")) as [entities|e];
      [| right; exists e; now rewrite run_lift_raise].
    rewrite run_lift_ok. now left.
  - destruct (py_get response "entities" (PList [])) as [entities|e];
      [| right; exists e; now rewrite run_lift_raise].
    rewrite run_lift_ok. apply entity_type_loop_all_or_nothing.
Qed.

Lemma insert_desc_perm (k x : pyval) (l r : list (pyval * pyval)) :
  insert_desc k x l = Ok r -> Permutation r ((k, x) :: l).
Proof.
  revert r. induction l as [|[k' y] rest IH]; intros r; cbn [insert_desc].
  - intros [= <-]. reflexivity.
  - destruct (py_lt k k') as [[|]|e]; cbn [rbind]; try discriminate.
    + destruct (insert_desc k x rest) as [r'|e]; cbn [rbind];
        try discriminate.
      intros [= <-]. rewrite (IH r' eq_refl). apply perm_swap.
    + intros [= <-]. reflexivity.
Qed.

Lemma sort_desc_perm (l s : list (pyval * pyval)) :
  sort_desc l = Ok s -> Permutation s l.
Proof.
  revert s. induction l as [|[k x] rest IH]; intros s; cbn [sort_desc].
  - intros [= <-]. reflexivity.
  - destruct (sort_desc rest) as [s'|e]; cbn [rbind]; try discriminate.
    intros Hins. rewrite (insert_desc_perm _ _ _ _ Hins).
    constructor. now apply IH.
Qed.

Lemma keyed_snd (l : list pyval) (ks : list (pyval * pyval)) :
  keyed (fun x => py_get x "confidence" PNone) l = Ok ks ->
  Forall is_dict l /\ snd <$> ks = l.
Proof.
  revert ks. induction l as [|x rest IH]; intros ks; cbn [keyed].
  - intros [= <-]. split; [constructor | reflexivity].
  - destruct (py_get x "confidence" PNone) as [k|e] eqn:Hx; cbn [rbind];
      try discriminate.
    destruct (keyed _ rest) as [r|e]; cbn [rbind]; try discriminate.
    intros [= <-]. destruct (IH r eq_refl) as [Hd Hr].
    split; [| cbn; now rewrite Hr].
    constructor; [| exact Hd].
    destruct x; try discriminate Hx. now eexists.
Qed.

Lemma sorted_reverse_perm (v : pyval) (s : list pyval) :
  sorted_reverse (fun x => py_get x "confidence" PNone) v = Ok s ->
  exists items,
    py_iter v = Ok items /\ Forall is_dict items /\ Permutation s items.
Proof.
  unfold sorted_reverse.
  destruct (py_iter v) as [items|e]; cbn [rbind]; try discriminate.
  destruct (keyed _ items) as [ks|e] eqn:Hk; cbn [rbind]; try discriminate.
  destruct (sort_desc ks) as [s'|e] eqn:Hs; cbn [rbind]; try discriminate.
  intros [= <-]. exists items.
  destruct (keyed_snd _ _ Hk) as [Hd Hsnd].
  split; [reflexivity | split; [exact Hd |]].
  rewrite <- Hsnd. apply Permutation_map. now apply sort_desc_perm.
Qed.

(** X7. The classification formatter is all or nothing too: the call
    either returns or raises with the row exactly as it was and no column
    written. Sorting reads the confidence of every category before the
    loop starts, so what the loop reads afterwards are objects. *)
Theorem format_text_classification_all_or_nothing
    (row : gmap string pyval) (response_column column_prefix : string)
    (output_format : OutputFormatEnum) (num_categories : Z)
    (error_handling : ErrorHandlingEnum) :
  outcome (format_text_classification response_column output_format
             num_categories column_prefix error_handling row) = Ok tt
  \/ exists e,
       format_text_classification response_column output_format
         num_categories column_prefix error_handling row
       = Run row [] (Raise e).
Proof.
  unfold format_text_classification.
  destruct (row !! response_column) as [raw|] eqn:Hraw;
    [| right; exists KeyError; now rewrite run_getitem_missing].
  rewrite (run_getitem _ raw) by exact Hraw.
  destruct (safe_json_loads raw error_handling) as [response|e];
    [| right; exists e; now rewrite run_lift_raise].
  rewrite run_lift_ok.
  destruct output_format.
  - rewrite run_keys.
    destruct (py_get response "categories" (PStr "")) as [categories|e];
      [| right; exists e; now rewrite run_lift_raise].
    rewrite run_lift_ok. now left.
  - destruct (py_get response "categories" (PList [])) as [categories|e];
      [| right; exists e; now rewrite run_lift_raise].
    rewrite run_lift_ok.
    destruct (sorted_reverse _ categories) as [s|e] eqn:Hs;
      [| right; exists e; now rewrite run_lift_raise].
    rewrite run_lift_ok. left.
    destruct (sorted_reverse_perm _ _ Hs) as (items & _ & Hd & Hp).
    assert (Hds : Forall is_dict s).
    { rewrite Forall_forall in Hd |- *. intros x Hx. apply Hd.
      now rewrite <- Hp. }
    destruct (category_loop_run (seq 0 (Z.to_nat num_categories)) s
                column_prefix Hds row) as [ws ->].
    reflexivity.
Qed.

(** X8. With [num_categories] zero or negative the classification
    formatter in MULTIPLE_COLUMNS format never touches the row: the loop
    over [range(num_categories)] has no round, whether the call returns or
    raises on the way to it. *)
Theorem format_text_classification_no_categories
    (row : gmap string pyval) (response_column column_prefix : string)
    (num_categories : Z) (error_handling : ErrorHandlingEnum) :
  (num_categories <= 0)%Z ->
  final (format_text_classification response_column MULTIPLE_COLUMNS
           num_categories column_prefix error_handling row) = row
  /\ writes (format_text_classification response_column MULTIPLE_COLUMNS
               num_categories column_prefix error_handling row) = [].
Proof.
  intros Hn. unfold format_text_classification.
  destruct (row !! response_column) as [raw|] eqn:Hraw;
    [| now rewrite run_getitem_missing].
  rewrite (run_getitem _ raw) by exact Hraw.
  destruct (safe_json_loads raw error_handling) as [response|e];
    [| now rewrite run_lift_raise].
  rewrite run_lift_ok.
  destruct (py_get response "categories" (PList [])) as [categories|e];
    [| now rewrite run_lift_raise].
  rewrite run_lift_ok.
  destruct (sorted_reverse _ categories) as [s|e];
    [| now rewrite run_lift_raise].
  rewrite run_lift_ok.
  replace (Z.to_nat num_categories) with 0%nat by lia.
  now cbn.
Qed.
End AllOrNothing.

Lemma format_text_classification_no_categories_witness :
  final (@format_text_classification Sample.runtime Sample.plugin_io
           "response" MULTIPLE_COLUMNS 0 "classification_api" LOG
           (Sample.row "categories")) = Sample.row "categories"
  /\ writes (@format_text_classification Sample.runtime Sample.plugin_io
               "response" MULTIPLE_COLUMNS 0 "classification_api" LOG
               (Sample.row "categories")) = [].
Proof.
  apply (@format_text_classification_no_categories Sample.runtime
           Sample.plugin_io (Sample.row "categories") "response"
           "classification_api" 0 LOG).
  lia.
Defined.

(** ** The sentiment columns *)

Section SentimentColumns.
Context `{PyRuntime} `{GoogleSdk} `{PluginIo}.

(** X9. The sentiment formatter is not all or nothing. When the score is a
    number and the magnitude is a value other than null that [float]
    rejects, the call
    raises the exception of that conversion after the score column and the
    scaled-score column have been assigned: the row keeps both and has no
    magnitude column written. *)
Theorem format_sentiment_analysis_partial_write
    (response_column sentiment_scale column_prefix : string)
    (error_handling : ErrorHandlingEnum) (row : gmap string pyval)
    (raw response : pyval) (sentiment : gmap string pyval)
    (f : spec_float) (v : pyval) (e : exn) :
  let score := default PNone (sentiment !! "score") in
  let magnitude := default PNone (sentiment !! "magnitude") in
  let c1 := generate_unique "score" (dom row) column_prefix in
  let c2 := generate_unique "score_scaled" (dom row) column_prefix in
  row !! response_column = Some raw ->
  json_loads raw = Ok response ->
  py_get response "documentSentiment" (PDict ∅) = Ok (PDict sentiment) ->
  score <> PNone ->
  py_float score = Ok f ->
  scale_sentiment_score score sentiment_scale = Ok v ->
  magnitude <> PNone ->
  py_float magnitude = Raise e ->
  format_sentiment_analysis response_column sentiment_scale column_prefix
    error_handling row
  = Run (<[c2 := v]> (<[c1 := PFloat f]> row)) [c1; c2] (Raise e).
Proof.
  intros score magnitude c1 c2 Hraw Hjson Hsent Hn Hf Hv Hmn Hm.
  rewrite (format_sentiment_analysis_run _ _ _ _ _ raw response
             (PDict sentiment) score magnitude Hraw
             (safe_json_loads_decoded _ _ _ Hjson) Hsent eq_refl eq_refl).
  fold c1 c2.
  pose proof (score_block_some score sentiment_scale c1 c2 row f v Hn Hf Hv)
    as Hs.
  rewrite (mbind_ok _ _ _ tt) by (now rewrite Hs).
  rewrite Hs. cbn [final writes outcome].
  destruct magnitude; try (now elim Hmn);
    unfold magnitude_block, mbind, lift, setitem; cbn [outcome final writes];
    rewrite Hm; reflexivity.
Qed.

Lemma scale_sentiment_score_result (score : pyval) (scale : string)
    (v : pyval) :
  scale_sentiment_score score scale = Ok v ->
  if String.eqb scale "binary" || String.eqb scale "ternary"
     || String.eqb scale "quinary"
  then exists s,
    v = PStr s
    /\ s ∈ ["highly negative"; "negative"; "neutral"; "positive";
            "highly positive"]
  else exists f, v = PFloat f.
Proof.
  unfold scale_sentiment_score, py_gt.
  destruct (String.eqb scale "binary"); cbn [orb].
  { destruct (py_lt _ _) as [[]|]; cbn [rbind]; try discriminate;
      intros [= <-]; eexists; (split; [reflexivity | set_solver]). }
  destruct (String.eqb scale "ternary"); cbn [orb].
  { repeat (match goal with
            | |- context [rbind ?x _] => destruct x as [[]|]; cbn [rbind]
            end);
      try discriminate;
      intros [= <-]; eexists; (split; [reflexivity | set_solver]). }
  destruct (String.eqb scale "quinary"); cbn [orb].
  { repeat (match goal with
            | |- context [rbind ?x _] => destruct x as [[]|]; cbn [rbind]
            end);
      try discriminate;
      intros [= <-]; eexists; (split; [reflexivity | set_solver]). }
  destruct (String.eqb scale "rescale_zero_to_one").
  - destruct (py_add_float _ _); cbn [rbind]; try discriminate.
    intros [= <-]. now eexists.
  - destruct (py_float _); cbn [rbind]; try discriminate.
    intros [= <-]. now eexists.
Qed.

Lemma magnitude_block_inv (magnitude : pyval) (c3 : string)
    (r : gmap string pyval) :
  outcome (magnitude_block magnitude c3 r) = Ok tt ->
  final (magnitude_block magnitude c3 r) !! c3 = Some PNone
  \/ exists f, final (magnitude_block magnitude c3 r) !! c3 = Some (PFloat f).
Proof.
  destruct magnitude; unfold magnitude_block, mbind, lift, setitem;
    cbn [outcome final writes];
    try (destruct (py_float _) as [fl|]; cbn [outcome final writes];
         [|discriminate]);
    intros _; rewrite lookup_insert_eq; eauto.
Qed.

(** X10. Whenever the sentiment formatter returns, the score column and
    the magnitude column each hold a float or null, never the integer, the
    boolean or the string the response had; the scaled-score column holds
    null, or one of the five labels when the scale is binary, ternary or
    quinary, or a float for any other scale. The three column names are
    assumed distinct. *)
Theorem format_sentiment_analysis_column_types
    (response_column sentiment_scale column_prefix : string)
    (error_handling : ErrorHandlingEnum) (row : gmap string pyval) :
  let c1 := generate_unique "score" (dom row) column_prefix in
  let c2 := generate_unique "score_scaled" (dom row) column_prefix in
  let c3 := generate_unique "magnitude" (dom row) column_prefix in
  let r := format_sentiment_analysis response_column sentiment_scale
             column_prefix error_handling row in
  c1 <> c2 -> c1 <> c3 -> c2 <> c3 ->
  outcome r = Ok tt ->
  (final r !! c1 = Some PNone \/ exists f, final r !! c1 = Some (PFloat f))
  /\ (final r !! c3 = Some PNone \/ exists f, final r !! c3 = Some (PFloat f))
  /\ (final r !! c2 = Some PNone
      \/ if String.eqb sentiment_scale "binary"
            || String.eqb sentiment_scale "ternary"
            || String.eqb sentiment_scale "quinary"
         then exists s,
           final r !! c2 = Some (PStr s)
           /\ s ∈ ["highly negative"; "negative"; "neutral"; "positive";
                   "highly positive"]
         else exists f, final r !! c2 = Some (PFloat f)).
Proof.
  intros c1 c2 c3 r H12 H13 H23 Hok.
  destruct (format_sentiment_analysis_inv _ _ _ _ _ Hok)
    as (raw & response & sentiment & score & magnitude
        & Hraw & Hresp & Hsent & Hscore & Hmag).
  subst r. revert Hok.
  rewrite (format_sentiment_analysis_run _ _ _ _ _ raw response sentiment
             score magnitude Hraw Hresp Hsent Hscore Hmag).
  fold c1 c2 c3. intros Hok.
  destruct (mbind_outcome_ok _ _ _ _ Hok) as ([] & Hsb & Hmb).
  rewrite (mbind_ok _ _ _ tt Hsb). cbn [final].
  pose proof (magnitude_block_inv _ _ _ Hmb) as Hc3.
  rewrite !(magnitude_block_other magnitude c3 c1) by congruence.
  rewrite !(magnitude_block_other magnitude c3 c2) by congruence.
  split; [| split; [exact Hc3 |]].
  - destruct (score_block_inv _ _ _ _ _ Hsb) as [->|(Hn & f & v & Hf & Hv)].
    + rewrite score_block_none. cbn [final].
      rewrite lookup_insert_ne by congruence. rewrite lookup_insert_eq.
      now left.
    + rewrite (score_block_some _ _ _ _ _ f v Hn Hf Hv). cbn [final].
      rewrite lookup_insert_ne by congruence. rewrite lookup_insert_eq.
      right. now exists f.
  - destruct (score_block_inv _ _ _ _ _ Hsb) as [->|(Hn & f & v & Hf & Hv)].
    + rewrite score_block_none. cbn [final].
      rewrite lookup_insert_eq. now left.
    + rewrite (score_block_some _ _ _ _ _ f v Hn Hf Hv). cbn [final].
      rewrite lookup_insert_eq. right.
      pose proof (scale_sentiment_score_result _ _ _ Hv) as Hres.
      destruct (_ || _).
      * destruct Hres as (s & -> & Hs). now exists s.
      * destruct Hres as (fl & ->). now exists fl.
Qed.
End SentimentColumns.

Lemma format_sentiment_analysis_partial_write_witness :
  let row := Sample.row "bad magnitude" in
  @format_sentiment_analysis Shapes.runtime Sample.plugin_io "response"
    "ternary" "sentiment_api" LOG row
  = Run (<["sentiment_api_score_scaled" := PStr "positive"]>
           (<["sentiment_api_score" := PFloat f64_0_34]> row))
        ["sentiment_api_score"; "sentiment_api_score_scaled"]
        (Raise TypeError).
Proof.
  cbv zeta.
  pose proof (@format_sentiment_analysis_partial_write Shapes.runtime
                Sample.plugin_io "response" "ternary" "sentiment_api" LOG
                (Sample.row "bad magnitude") (PStr "bad magnitude")
                Shapes.bad_magnitude_doc
                (<["score" := PFloat f64_0_34]> {["magnitude" := PList []]})
                f64_0_34 (PStr "positive") TypeError) as W.
  cbv zeta in W.
  rewrite W; [vm_compute; reflexivity | reflexivity | reflexivity
             | reflexivity | | reflexivity | reflexivity | | reflexivity].
  - vm_compute. discriminate.
  - vm_compute. discriminate.
Defined.

Lemma format_sentiment_analysis_column_types_witness :
  let row := Sample.row "sentiment" in
  let r := @format_sentiment_analysis Sample.runtime Sample.plugin_io
             "response" "ternary" "sentiment_api" LOG row in
  (final r !! "sentiment_api_score" = Some PNone
   \/ exists f, final r !! "sentiment_api_score" = Some (PFloat f))
  /\ (final r !! "sentiment_api_magnitude" = Some PNone
      \/ exists f, final r !! "sentiment_api_magnitude" = Some (PFloat f)).
Proof.
  cbv zeta.
  assert (D12 : @generate_unique Sample.plugin_io "score"
                  (dom (Sample.row "sentiment")) "sentiment_api"
                <> @generate_unique Sample.plugin_io "score_scaled"
                  (dom (Sample.row "sentiment")) "sentiment_api")
    by (vm_compute; discriminate).
  assert (D13 : @generate_unique Sample.plugin_io "score"
                  (dom (Sample.row "sentiment")) "sentiment_api"
                <> @generate_unique Sample.plugin_io "magnitude"
                  (dom (Sample.row "sentiment")) "sentiment_api")
    by (vm_compute; discriminate).
  assert (D23 : @generate_unique Sample.plugin_io "score_scaled"
                  (dom (Sample.row "sentiment")) "sentiment_api"
                <> @generate_unique Sample.plugin_io "magnitude"
                  (dom (Sample.row "sentiment")) "sentiment_api")
    by (vm_compute; discriminate).
  assert (Hok : outcome (@format_sentiment_analysis Sample.runtime
                           Sample.plugin_io "response" "ternary"
                           "sentiment_api" LOG (Sample.row "sentiment"))
                = Ok tt) by (vm_compute; reflexivity).
  destruct (@format_sentiment_analysis_column_types Sample.runtime
              Sample.plugin_io "response" "ternary" "sentiment_api" LOG
              (Sample.row "sentiment") D12 D13 D23 Hok) as (W1 & W3 & _).
  assert (E1 : @generate_unique Sample.plugin_io "score"
                 (dom (Sample.row "sentiment")) "sentiment_api"
               = "sentiment_api_score") by (vm_compute; reflexivity).
  assert (E3 : @generate_unique Sample.plugin_io "magnitude"
                 (dom (Sample.row "sentiment")) "sentiment_api"
               = "sentiment_api_magnitude") by (vm_compute; reflexivity).
  rewrite E1 in W1. rewrite E3 in W3. exact (conj W1 W3).
Defined.

(** ** The single column *)

Section SingleColumn.
Context `{PyRuntime} `{GoogleSdk} `{PluginIo}.

(** X11. In SINGLE_COLUMN format the two formatters copy: when the
    response decodes to an object, the call returns after exactly one
    assignment, of the value found under "entities" (or "categories") as it
    is, or of the empty string when the object has no such key. The value
    is not inspected: the categories are neither sorted nor cut to
    [num_categories], and a value that is not a list is copied as well. *)
Theorem single_column_copies_the_response (row : gmap string pyval)
    (response_column column_prefix : string) (num_categories : Z)
    (error_handling : ErrorHandlingEnum) (raw : pyval)
    (response : gmap string pyval) :
  let entity_column := generate_unique "entities" (dom row) column_prefix in
  let classification_column :=
    generate_unique "categories" (dom row) column_prefix in
  row !! response_column = Some raw ->
  json_loads raw = Ok (PDict response) ->
  format_named_entity_recognition response_column SINGLE_COLUMN
    column_prefix error_handling row
  = Run (<[entity_column := default (PStr "") (response !! "entities")]> row)
        [entity_column] (Ok tt)
  /\ format_text_classification response_column SINGLE_COLUMN num_categories
       column_prefix error_handling row
     = Run (<[classification_column
              := default (PStr "") (response !! "categories")]> row)
           [classification_column] (Ok tt).
Proof.
  intros entity_column classification_column Hraw Hjson.
  unfold format_named_entity_recognition, format_text_classification.
  rewrite !(run_getitem _ raw) by exact Hraw.
  rewrite !(safe_json_loads_decoded _ _ _ Hjson), !run_lift_ok.
  rewrite !run_keys. cbn [py_get]. rewrite !run_lift_ok.
  split; reflexivity.
Qed.
End SingleColumn.

Lemma single_column_copies_the_response_witness :
  let row := Sample.row "entities as number" in
  @format_named_entity_recognition Shapes.runtime Sample.sdk Sample.plugin_io
    "response" SINGLE_COLUMN "ner_api" FAIL row
  = Run (<["ner_api_entities" := PInt 3]> row) ["ner_api_entities"] (Ok tt).
Proof.
  cbv zeta.
  pose proof (@single_column_copies_the_response Shapes.runtime Sample.sdk
                Sample.plugin_io (Sample.row "entities as number")
                "response" "ner_api" 3 FAIL (PStr "entities as number")
                {["entities" := PInt 3]} eq_refl eq_refl) as W.
  cbv zeta in W. destruct W as [W _].
  rewrite W. vm_compute. reflexivity.
Defined.

(** ** The client *)

Section ClientProvenance.
Context `{PyRuntime} `{GoogleSdk}.

(** X12. What [get_client] returns or raises comes from the library: a
    client it returns was built by the client constructor, with
    credentials exactly when a key was given, and those credentials were
    made from the decoded key; an exception it raises is its own
    [ValueError], and then the decoder had rejected the key, or is the
    exception of the credentials constructor or of the client constructor.
    An exception of the decoder itself never gets out. *)
Theorem get_client_provenance (gcp_service_account_key : option pyval) :
  match get_client gcp_service_account_key with
  | Ok c =>
      match gcp_service_account_key with
      | None => LanguageServiceClient None = Ok c
      | Some key =>
          exists info creds,
            json_loads key = Ok info
            /\ from_service_account_info info = Ok creds
            /\ LanguageServiceClient (Some creds) = Ok c
      end
  | Raise e =>
      (exists key e',
          gcp_service_account_key = Some key /\ json_loads key = Raise e'
          /\ e = ValueError "GCP service account key is not valid JSON.")
      \/ (exists info, from_service_account_info info = Raise e)
      \/ (exists oc, LanguageServiceClient oc = Raise e)
  end.
Proof.
  destruct gcp_service_account_key as [key|]; cbn [get_client].
  - destruct (json_loads key) as [info|e'] eqn:Hj.
    + destruct (from_service_account_info info) as [creds|e] eqn:Hc;
        cbn [rbind].
      * destruct (LanguageServiceClient (Some creds)) as [c|e] eqn:Hl.
        -- now exists info, creds.
        -- right. right. now exists (Some creds).
      * right. left. now exists info.
    + left. now exists key, e'.
  - destruct (LanguageServiceClient None) as [c|e] eqn:Hl; [reflexivity|].
    right. right. now exists None.
Qed.
End ClientProvenance.

(** ** Entities across the type columns *)

Section EntityPartition.
Context `{PyRuntime}.

Lemma py_eq_str_true (t : pyval) (n : string) :
  py_eq_str t n = true -> t = PStr n.
Proof.
  destruct t; try discriminate. cbn. intros Hs.
  apply String.eqb_eq in Hs. now subst.
Qed.

Lemma existsb_py_eq_str_false (t : pyval) (n : string) (types : list string) :
  n ∉ types -> py_eq_str t n = true -> existsb (py_eq_str t) types = false.
Proof.
  intros Hn Ht. apply py_eq_str_true in Ht. subst t.
  induction types as [|m rest IH]; [reflexivity|].
  cbn [existsb]. rewrite not_elem_of_cons in Hn. destruct Hn as [Hm Hrest].
  rewrite (IH Hrest), orb_false_r. cbn.
  apply String.eqb_neq. exact Hm.
Qed.

Lemma concat_one_type (t x : pyval) (types : list string) :
  NoDup types ->
  concat ((fun n => if py_eq_str t n then [x] else []) <$> types)
  = if existsb (py_eq_str t) types then [x] else [].
Proof.
  induction 1 as [|n rest Hn _ IH]; [reflexivity|].
  cbn [fmap list_fmap concat existsb]. rewrite IH.
  destruct (py_eq_str t n) eqn:Ht; cbn [orb app]; [| reflexivity].
  now rewrite (existsb_py_eq_str_false t n rest Hn Ht).
Qed.

Lemma concat_fmap_app {A B : Type} (f g : A -> list B) (l : list A) :
  Permutation (concat ((fun a => (f a ++ g a)%list) <$> l))
              (concat (f <$> l) ++ concat (g <$> l))%list.
Proof.
  induction l as [|a rest IH]; [reflexivity|].
  cbn [fmap list_fmap concat]. rewrite IH.
  rewrite <- !app_assoc. apply Permutation_app_head.
  rewrite !app_assoc. apply Permutation_app_tail.
  apply Permutation_app_comm.
Qed.

Lemma names_of_type_partition (entities : list pyval) (types : list string) :
  NoDup types ->
  Permutation
    (concat (names_of_type entities <$> types))
    ((fun e => dict_get e "name" PNone)
       <$> List.filter (fun e => existsb (py_eq_str (entity_type e)) types)
             entities).
Proof.
  intros Hnd. induction entities as [|e rest IH].
  - cbn [List.filter fmap list_fmap].
    induction types as [|n ns IHn]; [reflexivity|].
    cbn [fmap list_fmap concat]. apply IHn. now inversion Hnd.
  - assert (Hfun : names_of_type (e :: rest) <$> types
                   = (fun n =>
                        ((if py_eq_str (entity_type e) n
                          then [dict_get e "name" PNone] else [])
                         ++ names_of_type rest n)%list) <$> types).
    { apply list_fmap_ext. intros _ n _. unfold names_of_type, entity_type.
      cbn [List.filter]. now destruct (py_eq_str _ n). }
    rewrite Hfun, concat_fmap_app, (concat_one_type _ _ _ Hnd), IH.
    cbn [List.filter].
    now destruct (existsb _ types).
Qed.

(** X13. No entity is listed twice and none of a known type is lost: when
    the comprehension of the entity formatter has given its list for each
    of the entity types, and no type name occurs twice, the lists taken
    together hold exactly the names of the entities whose type is one of
    the types, each as many times as the entity occurs. An entity with no
    type, or with a type that is not in the enumeration, is in no list. *)
Theorem entity_names_partition (entities : list pyval) (types : list string)
    (columns : list (list pyval)) :
  NoDup types ->
  Forall2 (fun n column => entity_names entities n = Ok column)
    types columns ->
  Permutation
    (concat columns)
    ((fun e => dict_get e "name" PNone)
       <$> List.filter (fun e => existsb (py_eq_str (entity_type e)) types)
             entities).
Proof.
  intros Hnd Hcols.
  assert (Hc : columns = names_of_type entities <$> types).
  { destruct (entity_names_dicts_or_raise entities) as [Hes | Hes].
    - induction Hcols as [|n column ns cs Hn _ IH]; [reflexivity|].
      rewrite (entity_names_dicts _ _ Hes) in Hn. injection Hn as <-.
      cbn [fmap list_fmap]. f_equal. apply IH. now inversion Hnd.
    - destruct Hcols as [|n column ns cs Hn _]; [reflexivity|].
      rewrite Hes in Hn. discriminate Hn. }
  rewrite Hc. now apply names_of_type_partition.
Qed.
End EntityPartition.

Lemma entity_names_partition_witness :
  Permutation
    (concat [[]; [PStr "A"]])
    ((fun e => dict_get e "name" PNone)
       <$> List.filter
             (fun e => existsb (py_eq_str (entity_type e))
                         ["LOCATION"; "PERSON"])
             [Sample.entity;
              PDict {["name" := PStr "B"]};
              PDict (<["name" := PStr "C"]> {["type" := PStr "EVENT"]})]).
Proof.
  apply entity_names_partition.
  - repeat constructor; set_solver.
  - repeat constructor.
Defined.

(** ** A score that is not a number in the IEEE sense *)

Section ScaleNaN.
Context `{PyRuntime}.

(** X14. A NaN score fails every comparison, so it falls through to the
    last branch of each label mode: positive in binary, neutral in ternary
    and highly positive in quinary; rescale_zero_to_one gives NaN back. *)
Theorem scale_sentiment_score_nan :
  scale_sentiment_score (PFloat S754_nan) "binary" = Ok (PStr "positive")
  /\ scale_sentiment_score (PFloat S754_nan) "ternary" = Ok (PStr "neutral")
  /\ scale_sentiment_score (PFloat S754_nan) "quinary"
     = Ok (PStr "highly positive")
  /\ scale_sentiment_score (PFloat S754_nan) "rescale_zero_to_one"
     = Ok (PFloat S754_nan).
Proof.
  rewrite (scale_binary_number (PFloat S754_nan) XNaN eq_refl).
  rewrite (scale_ternary_number (PFloat S754_nan) XNaN eq_refl).
  rewrite (scale_quinary_number (PFloat S754_nan) XNaN eq_refl).
  repeat split.
Qed.
End ScaleNaN.
